(** * Moderation backend: identifier resolution, upserts and HTTP endpoints

    Shallow embedding of [src/backend.py].  The file follows the source
    top-down: the Python string primitives the code calls, the identifier
    resolver [extract_id_from_input], the relational store with its three
    upsert statements, the enrichment client, and the three endpoints.

    Modelling conventions.
    - A Python [str] is a [string]; a character is a code point below 256.
    - [None] is [None]; a nullable SQL column is an [option].
    - A timestamp is an integer ([Z]), the value [NOW()] has when the
      statement runs.
    - A call that may raise returns a sum or an [option]; an exception that
      no handler catches ends the request as [Unhandled]. *)

From Stdlib Require Import ZArith Bool List Ascii String Lia.
From stdpp Require Import gmap strings.

Local Open Scope string_scope.
Local Open Scope list_scope.

(** ** Python string primitives *)

(** The code of character [c] lies in the closed range [lo..hi]. *)
Definition code_in (lo hi : nat) (c : ascii) : bool :=
  Nat.leb lo (nat_of_ascii c) && Nat.leb (nat_of_ascii c) hi.

Definition is_char (n : nat) (c : ascii) : bool := Nat.eqb (nat_of_ascii c) n.

Module Py.

(** [str.isspace] on one character (code points below 256). *)
Definition isspace (c : ascii) : bool :=
  code_in 9 13 c || code_in 28 32 c || is_char 133 c || is_char 160 c.

Fixpoint lstrip_by (p : ascii -> bool) (s : string) : string :=
  match s with
  | EmptyString => EmptyString
  | String c s' => if p c then lstrip_by p s' else s
  end.

Fixpoint rstrip_by (p : ascii -> bool) (s : string) : string :=
  match s with
  | EmptyString => EmptyString
  | String c s' =>
      match rstrip_by p s' with
      | EmptyString => if p c then EmptyString else String c EmptyString
      | r => String c r
      end
  end.

Definition strip_by (p : ascii -> bool) (s : string) : string :=
  rstrip_by p (lstrip_by p s).

(** [s.strip()] *)
Definition strip (s : string) : string := strip_by isspace s.

(** [s.strip(chars)] for a one-character [chars] *)
Definition strip_char (c : ascii) (s : string) : string :=
  strip_by (Ascii.eqb c) s.

(** [s.startswith(pre)] *)
Fixpoint startswith (pre s : string) : bool :=
  match pre, s with
  | EmptyString, _ => true
  | String _ _, EmptyString => false
  | String a pre', String b s' => Ascii.eqb a b && startswith pre' s'
  end.

(** [sub in s] *)
Fixpoint contains (sub s : string) : bool :=
  startswith sub s ||
  match s with
  | EmptyString => false
  | String _ s' => contains sub s'
  end.

(** [s.split(sep)] for a one-character separator: never the empty list. *)
Fixpoint split (sep : ascii) (s : string) : list string :=
  match s with
  | EmptyString => [EmptyString]
  | String c s' =>
      if Ascii.eqb c sep then EmptyString :: split sep s'
      else match split sep s' with
           | [] => [String c EmptyString]
           | p :: ps => String c p :: ps
           end
  end.

(** Every character of [s] is whitespace. *)
Fixpoint all_space (s : string) : bool :=
  match s with
  | EmptyString => true
  | String c s' => isspace c && all_space s'
  end.

(** [not x] for a string: the empty string is falsy. *)
Definition str_falsy (s : string) : bool :=
  match s with EmptyString => true | _ => false end.

(** Truthiness of an optional string: [None] and [""] are falsy. *)
Definition truthy (o : option string) : bool :=
  match o with
  | Some s => negb (str_falsy s)
  | None => false
  end.

(** [str(b)] for a bool, as an f-string prints it. *)
Definition str_of_bool (b : bool) : string := if b then "True" else "False".

End Py.

(** ** The bare-identifier pattern

    [SPOTIFY_ID_RE = re.compile(r"([A-Za-z0-9]{22})")] *)

Definition is_alnum (c : ascii) : bool :=
  code_in 65 90 c || code_in 97 122 c || code_in 48 57 c.

(** The first [n] characters of [s] when there are [n] of them and all are
    in the class [[A-Za-z0-9]]. *)
Fixpoint take_alnum (n : nat) (s : string) : option string :=
  match n with
  | O => Some EmptyString
  | S n' =>
      match s with
      | EmptyString => None
      | String c s' =>
          if is_alnum c then
            match take_alnum n' s' with
            | Some t => Some (String c t)
            | None => None
            end
          else None
      end
  end.

(** [id] is a token of 22 characters of the class [[A-Za-z0-9]]. *)
Definition is_id22 (id : string) : Prop := take_alnum 22 id = Some id.

(** [SPOTIFY_ID_RE.search(s)], giving [m.group(1)] of the leftmost match. *)
Fixpoint SPOTIFY_ID_RE_search (s : string) : option string :=
  match take_alnum 22 s with
  | Some t => Some t
  | None =>
      match s with
      | EmptyString => None
      | String _ s' => SPOTIFY_ID_RE_search s'
      end
  end.

(** ** A model of [urllib.parse.urlparse]

    [urlparse] belongs to the Python standard library, not to the
    repository.  The resolver below takes it as a parameter, so that the
    general theorems hold whatever it returns.  [Urllib.urlparse] is the
    instance used to evaluate the resolver on concrete inputs: it follows
    [urlsplit] and [urlparse] of CPython 3.12 for the two fields the code reads,
    [netloc] and [path].  A raised [ValueError] is [None].  Two checks of
    CPython are left out, both on unusual hosts: the address inside a
    bracketed host is not validated, and the NFKC check of a non-ASCII
    host is not run. *)

Module Urllib.

Record ParseResult := { netloc : string; path : string }.

Definition is_c0_or_space (c : ascii) : bool := code_in 0 32 c.

Definition is_unsafe (c : ascii) : bool :=
  is_char 9 c || is_char 10 c || is_char 13 c.

Fixpoint remove_chars (p : ascii -> bool) (s : string) : string :=
  match s with
  | EmptyString => EmptyString
  | String c s' =>
      if p c then remove_chars p s' else String c (remove_chars p s')
  end.

Definition is_alpha (c : ascii) : bool :=
  code_in 65 90 c || code_in 97 122 c.

Definition is_scheme_char (c : ascii) : bool :=
  is_alnum c || is_char 43 c || is_char 45 c || is_char 46 c.

Definition lower (c : ascii) : ascii :=
  if code_in 65 90 c then ascii_of_nat (nat_of_ascii c + 32) else c.

Fixpoint lower_str (s : string) : string :=
  match s with
  | EmptyString => EmptyString
  | String c s' => String (lower c) (lower_str s')
  end.

(** [s.partition(c)]: the text before the first [c] and, when there is
    one, the text after it. *)
Fixpoint partition (p : ascii -> bool) (s : string) : string * option string :=
  match s with
  | EmptyString => (EmptyString, None)
  | String c s' =>
      if p c then (EmptyString, Some s')
      else let '(a, b) := partition p s' in (String c a, b)
  end.

(** Like [partition], the delimiter staying at the head of the rest. *)
Fixpoint break_at (p : ascii -> bool) (s : string) : string * string :=
  match s with
  | EmptyString => (EmptyString, EmptyString)
  | String c s' =>
      if p c then (EmptyString, s)
      else let '(a, b) := break_at p s' in (String c a, b)
  end.

Fixpoint forallb_str (p : ascii -> bool) (s : string) : bool :=
  match s with
  | EmptyString => true
  | String c s' => p c && forallb_str p s'
  end.

Fixpoint existsb_str (p : ascii -> bool) (s : string) : bool :=
  match s with
  | EmptyString => false
  | String c s' => p c || existsb_str p s'
  end.

(** The scheme, lower-cased, and the rest of the text; no scheme when the
    text before the first colon is not a scheme name. *)
Definition split_scheme (url : string) : string * string :=
  match partition (is_char 58) url with
  | (String c0 pre, Some rest) =>
      if is_alpha c0 && forallb_str is_scheme_char (String c0 pre)
      then (lower_str (String c0 pre), rest)
      else (EmptyString, url)
  | _ => (EmptyString, url)
  end.

(** The text after the last [c] of [s], all of [s] when there is none. *)
Fixpoint after_last (c : nat) (s : string) : string :=
  match s with
  | EmptyString => EmptyString
  | String a s' =>
      if existsb_str (is_char c) s then
        (if existsb_str (is_char c) s' then after_last c s' else s')
      else s
  end.

(** The structural part of [_check_bracketed_netloc]. *)
Definition bracketed_netloc_ok (nl : string) : bool :=
  let hp := after_last 64 nl in
  match partition (is_char 91) hp with
  | (before, Some bracketed) =>
      Py.str_falsy before &&
      match partition (is_char 93) bracketed with
      | (_, Some port) => Py.str_falsy port || Py.startswith ":" port
      | (_, None) => true
      end
  | (_, None) => true
  end.

Definition uses_params : list string :=
  [""; "ftp"; "hdl"; "prospero"; "http"; "imap"; "https"; "shttp"; "rtsp";
   "rtspu"; "sip"; "sips"; "mms"; "sftp"; "tel"].

(** [_splitparams(url)[0]]: the parameters of the last path segment go. *)
Fixpoint drop_params (url : string) : string :=
  match url with
  | EmptyString => EmptyString
  | String c s' =>
      if existsb_str (is_char 47) s' then String c (drop_params s')
      else if is_char 47 c then String c (fst (partition (is_char 59) s'))
      else fst (partition (is_char 59) url)
  end.

Definition urlparse (url0 : string) : option ParseResult :=
  let url := remove_chars is_unsafe (Py.lstrip_by is_c0_or_space url0) in
  let '(scheme, url) := split_scheme url in
  let '(nl, url) :=
    if Py.startswith "//" url then
      match url with
      | String _ (String _ rest) =>
          break_at (fun c => is_char 47 c || is_char 63 c || is_char 35 c) rest
      | _ => (EmptyString, url)
      end
    else (EmptyString, url) in
  let has_open := existsb_str (is_char 91) nl in
  let has_close := existsb_str (is_char 93) nl in
  if xorb has_open has_close then None
  else if has_open && negb (bracketed_netloc_ok nl) then None
  else
    let url := fst (partition (is_char 35) url) in
    let url := fst (partition (is_char 63) url) in
    let url :=
      if existsb (String.eqb scheme) uses_params then drop_params url
      else url in
    Some {| netloc := nl; path := url |}.

End Urllib.

(** ** The identifier resolver *)

Section Resolver.

(** [urlparse(v)], giving the fields the code reads; [None] when it raises. *)
Variable urlparse : string -> option Urllib.ParseResult.

(** Lines 131-134: the [spotify:] URI form. *)
Definition uri_form (v : string) : option (option string * option string) :=
  if Py.startswith "spotify:" v then
    match Py.split ":" v with
    | _ :: kind :: id :: _ => Some (Some kind, Some id)
    | _ => None
    end
  else None.

(** Lines 135-145: the URL form.  An exception inside [try] is passed
    over, and so is a host without the marker: both give [None] here and
    the caller goes on to the next strategy. *)
Definition url_form (v : string) : option (option string * option string) :=
  match urlparse v with
  | None => None
  | Some p =>
      if negb (Py.str_falsy (Urllib.netloc p))
         && Py.contains "spotify" (Urllib.netloc p)
      then
        let path := Py.strip_char "/" (Urllib.path p) in
        match Py.split "/" path with
        | kind :: id :: _ =>
            Some (Some kind, Some (hd EmptyString (Py.split "?" id)))
        | [only] => Some (None, Some only)
        | [] => None
        end
      else None
  end.

(** [extract_id_from_input(value)]: the pair [(kind, id)]. *)
Definition extract_id_from_input (value : string)
  : option string * option string :=
  if Py.str_falsy value then (None, None)
  else
    let v := Py.strip value in
    match uri_form v with
    | Some r => r
    | None =>
        match url_form v with
        | Some r => r
        | None =>
            match SPOTIFY_ID_RE_search v with
            | Some m => (None, Some m)
            | None => (None, Some v)
            end
        end
    end.

End Resolver.

(** ** The relational store *)

(** *** Schema, as [ensure_tables] declares it *)

Inductive sql_type := SqlText | SqlBoolean | SqlTimestamptz.

Inductive sql_default := NoDefault | DefaultBool (b : bool) | DefaultNow.

Record column := {
  col_name : string;
  col_type : sql_type;
  col_primary_key : bool;
  col_default : sql_default
}.

Record table_def := { tbl_name : string; tbl_columns : list column }.

Definition blacklisted_songs_def : table_def :=
  {| tbl_name := "blacklisted_songs";
     tbl_columns :=
       [ {| col_name := "song_id"; col_type := SqlText;
            col_primary_key := true; col_default := NoDefault |};
         {| col_name := "song_name"; col_type := SqlText;
            col_primary_key := false; col_default := NoDefault |};
         {| col_name := "artist_id"; col_type := SqlText;
            col_primary_key := false; col_default := NoDefault |};
         {| col_name := "artist_name"; col_type := SqlText;
            col_primary_key := false; col_default := NoDefault |};
         {| col_name := "fixed"; col_type := SqlBoolean;
            col_primary_key := false; col_default := DefaultBool false |};
         {| col_name := "created_at"; col_type := SqlTimestamptz;
            col_primary_key := false; col_default := DefaultNow |} ] |}.

Definition user_playlists_def : table_def :=
  {| tbl_name := "user_playlists";
     tbl_columns :=
       [ {| col_name := "playlist_id"; col_type := SqlText;
            col_primary_key := true; col_default := NoDefault |};
         {| col_name := "playlist_name"; col_type := SqlText;
            col_primary_key := false; col_default := NoDefault |};
         {| col_name := "blacklisted"; col_type := SqlBoolean;
            col_primary_key := false; col_default := DefaultBool true |};
         {| col_name := "updated_at"; col_type := SqlTimestamptz;
            col_primary_key := false; col_default := DefaultNow |} ] |}.

Definition whitelisted_profiles_def : table_def :=
  {| tbl_name := "whitelisted_profiles";
     tbl_columns :=
       [ {| col_name := "profile_id"; col_type := SqlText;
            col_primary_key := true; col_default := NoDefault |};
         {| col_name := "added_at"; col_type := SqlTimestamptz;
            col_primary_key := false; col_default := DefaultNow |} ] |}.

(** The column of [t] called [name]. *)
Definition column_of (t : table_def) (name : string) : option column :=
  find (fun c => String.eqb (col_name c) name) (tbl_columns t).

Inductive sql_value :=
  | VNull
  | VText (s : string)
  | VBool (b : bool)
  | VTime (t : Z).

(** The value a column takes when an [INSERT] does not name it. *)
Definition default_value (now : Z) (d : sql_default) : sql_value :=
  match d with
  | NoDefault => VNull
  | DefaultBool b => VBool b
  | DefaultNow => VTime now
  end.

Fixpoint assoc (k : string) (l : list (string * sql_value)) : option sql_value :=
  match l with
  | [] => None
  | (k', v) :: l' => if String.eqb k k' then Some v else assoc k l'
  end.

(** The row that [INSERT INTO t (given columns) VALUES (...)] builds: a
    column that is not named takes its default. *)
Definition insert_values (t : table_def) (now : Z)
    (given : list (string * sql_value)) : list (string * sql_value) :=
  map (fun c =>
         (col_name c,
          match assoc (col_name c) given with
          | Some v => v
          | None => default_value now (col_default c)
          end))
      (tbl_columns t).

(** *** Rows and tables *)

Record song_row := {
  song_name : option string;
  artist_id : option string;
  artist_name : option string;
  fixed : option bool;
  created_at : option Z
}.

Record playlist_row := {
  playlist_name : option string;
  blacklisted : option bool;
  updated_at : option Z
}.

Record profile_row := { added_at : option Z }.

(** A table maps its primary key to the other columns of the row; a table
    that has not been created is [None]. *)
Record database := {
  blacklisted_songs : option (gmap string song_row);
  user_playlists : option (gmap string playlist_row);
  whitelisted_profiles : option (gmap string profile_row)
}.

(** [COALESCE(a, b)] *)
Definition COALESCE {A} (a b : option A) : option A :=
  match a with
  | Some _ => a
  | None => b
  end.

(** A statement runs at a time [now] against a database and either raises
    (the text of the exception) or gives the new database. *)
Definition statement := Z -> database -> string + database.

(** [CREATE TABLE IF NOT EXISTS], one definition per table of [sqls]. *)
Definition create_blacklisted_songs : statement := fun _ d =>
  inr {| blacklisted_songs :=
           match blacklisted_songs d with Some t => Some t | None => Some ∅ end;
         user_playlists := user_playlists d;
         whitelisted_profiles := whitelisted_profiles d |}.

Definition create_user_playlists : statement := fun _ d =>
  inr {| blacklisted_songs := blacklisted_songs d;
         user_playlists :=
           match user_playlists d with Some t => Some t | None => Some ∅ end;
         whitelisted_profiles := whitelisted_profiles d |}.

Definition create_whitelisted_profiles : statement := fun _ d =>
  inr {| blacklisted_songs := blacklisted_songs d;
         user_playlists := user_playlists d;
         whitelisted_profiles :=
           match whitelisted_profiles d with
           | Some t => Some t
           | None => Some ∅
           end |}.

Definition sqls : list statement :=
  [create_blacklisted_songs; create_user_playlists; create_whitelisted_profiles].

(** The row of [blacklisted_songs] after the [INSERT ... ON CONFLICT
    (song_id) DO UPDATE] of lines 93-101, [old] being the row with that
    key before. *)
Definition merge_song (now : Z) (sname aid aname : option string)
    (fx : bool) (old : option song_row) : song_row :=
  match old with
  | None =>
      {| song_name := sname; artist_id := aid; artist_name := aname;
         fixed := Some fx; created_at := Some now |}
  | Some r =>
      {| song_name := COALESCE sname (song_name r);
         artist_id := COALESCE aid (artist_id r);
         artist_name := COALESCE aname (artist_name r);
         fixed := Some fx;
         created_at := created_at r |}
  end.

(** A row of [blacklisted_songs] column by column, in the order of the
    table definition. *)
Definition text_value (o : option string) : sql_value :=
  match o with Some s => VText s | None => VNull end.

Definition song_values (song_id : string) (r : song_row)
  : list (string * sql_value) :=
  [ ("song_id", VText song_id);
    ("song_name", text_value (song_name r));
    ("artist_id", text_value (artist_id r));
    ("artist_name", text_value (artist_name r));
    ("fixed", match fixed r with Some b => VBool b | None => VNull end);
    ("created_at", match created_at r with Some t => VTime t | None => VNull end) ].

Definition sql_upsert_blacklisted_song (song_id : string)
    (sname aid aname : option string) (fx : bool) : statement := fun now d =>
  match blacklisted_songs d with
  | None => inl "relation blacklisted_songs does not exist"
  | Some t =>
      inr {| blacklisted_songs :=
               Some (<[song_id := merge_song now sname aid aname fx (t !! song_id)]> t);
             user_playlists := user_playlists d;
             whitelisted_profiles := whitelisted_profiles d |}
  end.

(** Lines 106-113. *)
Definition merge_playlist (now : Z) (pname : option string) (bl : bool)
    (old : option playlist_row) : playlist_row :=
  match old with
  | None =>
      {| playlist_name := pname; blacklisted := Some bl;
         updated_at := Some now |}
  | Some r =>
      {| playlist_name := COALESCE pname (playlist_name r);
         blacklisted := Some bl;
         updated_at := Some now |}
  end.

Definition sql_upsert_user_playlist (playlist_id : string)
    (pname : option string) (bl : bool) : statement := fun now d =>
  match user_playlists d with
  | None => inl "relation user_playlists does not exist"
  | Some t =>
      inr {| blacklisted_songs := blacklisted_songs d;
             user_playlists :=
               Some (<[playlist_id := merge_playlist now pname bl (t !! playlist_id)]> t);
             whitelisted_profiles := whitelisted_profiles d |}
  end.

(** Lines 118-122: [ON CONFLICT (profile_id) DO NOTHING]. *)
Definition insert_profile (now : Z) (profile_id : string)
    (t : gmap string profile_row) : gmap string profile_row :=
  match t !! profile_id with
  | Some _ => t
  | None => <[profile_id := {| added_at := Some now |}]> t
  end.

Definition sql_upsert_whitelisted_profile (profile_id : string) : statement :=
  fun now d =>
  match whitelisted_profiles d with
  | None => inl "relation whitelisted_profiles does not exist"
  | Some t =>
      inr {| blacklisted_songs := blacklisted_songs d;
             user_playlists := user_playlists d;
             whitelisted_profiles := Some (insert_profile now profile_id t) |}
  end.

(** *** Connections

    A connection is in autocommit mode: every statement is its own
    transaction.  The server side of a connection is the database, the
    time [NOW()] has in the [n]-th statement of the connection, and the
    statements the server or the driver refuses, with the text of the
    exception.  A refusal is given by the position of the statement on the
    connection, whatever its cause, a value that the statement binds
    included.  [executed] counts the statements sent so far. *)

Record conn := {
  server_db : database;
  server_now : nat -> Z;
  server_fault : nat -> option string;
  executed : nat
}.

(** Code that uses a connection: it may raise, and it leaves the
    connection in a new state either way. *)
Definition DB (A : Type) : Type := conn -> (string + A) * conn.

Definition ret {A} (a : A) : DB A := fun c => (inr a, c).

Definition bind {A B} (m : DB A) (k : A -> DB B) : DB B := fun c =>
  match m c with
  | (inl e, c') => (inl e, c')
  | (inr a, c') => k a c'
  end.

Notation "m *> k" := (bind m (fun _ => k))
  (at level 65, right associativity).

(** The connection after one more statement, which left the database [d]. *)
Definition sent (c : conn) (d : database) : conn :=
  {| server_db := d; server_now := server_now c;
     server_fault := server_fault c; executed := S (executed c) |}.

(** [cur.execute(s)] *)
Definition execute (s : statement) : DB unit := fun c =>
  match server_fault c (executed c) with
  | Some e => (inl e, sent c (server_db c))
  | None =>
      match s (server_now c (executed c)) (server_db c) with
      | inl e => (inl e, sent c (server_db c))
      | inr d => (inr tt, sent c d)
      end
  end.

(** [for s in sqls: cur.execute(s)] *)
Fixpoint execute_all (l : list statement) : DB unit :=
  match l with
  | [] => ret tt
  | s :: l' => execute s *> execute_all l'
  end.

Definition ensure_tables : DB unit := execute_all sqls.

(** The value of the parameter [fixed] when the caller leaves it out. *)
Definition upsert_blacklisted_song_fixed_default : bool := true.

Definition upsert_blacklisted_song (song_id : string)
    (sname aid aname : option string) (fx : bool) : DB unit :=
  execute (sql_upsert_blacklisted_song song_id sname aid aname fx).

Definition upsert_user_playlist_blacklist (playlist_id : string)
    (pname : option string) (bl : bool) : DB unit :=
  execute (sql_upsert_user_playlist playlist_id pname bl).

Definition upsert_whitelisted_profile (profile_id : string) : DB unit :=
  execute (sql_upsert_whitelisted_profile profile_id).

(** A call of one of the three upsert functions, and a run of such calls
    one after the other on a connection. *)
Inductive upsert_call :=
  | CallSong (song_id : string) (sname aid aname : option string) (fx : bool)
  | CallPlaylist (playlist_id : string) (pname : option string) (bl : bool)
  | CallProfile (profile_id : string).

Definition run_call (k : upsert_call) : DB unit :=
  match k with
  | CallSong song_id sname aid aname fx =>
      upsert_blacklisted_song song_id sname aid aname fx
  | CallPlaylist playlist_id pname bl =>
      upsert_user_playlist_blacklist playlist_id pname bl
  | CallProfile profile_id => upsert_whitelisted_profile profile_id
  end.

Fixpoint run_calls (l : list upsert_call) : DB unit :=
  match l with
  | [] => ret tt
  | k :: l' => run_call k *> run_calls l'
  end.

(** The three tables are there. *)
Definition has_tables (d : database) : Prop :=
  is_Some (blacklisted_songs d) /\ is_Some (user_playlists d)
  /\ is_Some (whitelisted_profiles d).

(** [SELECT] of one row by primary key, as the theorems read a table. *)
Definition song (c : conn) (song_id : string) : option song_row :=
  match blacklisted_songs (server_db c) with
  | Some t => t !! song_id
  | None => None
  end.

Definition user_playlist (c : conn) (playlist_id : string) : option playlist_row :=
  match user_playlists (server_db c) with
  | Some t => t !! playlist_id
  | None => None
  end.

Definition whitelisted_profile (c : conn) (profile_id : string) : option profile_row :=
  match whitelisted_profiles (server_db c) with
  | Some t => t !! profile_id
  | None => None
  end.

(** The server refuses none of the next [k] statements of the connection. *)
Definition accepts (c : conn) (k : nat) : Prop :=
  forall i, i < k -> server_fault c (executed c + i) = None.

(** The database once the three [CREATE TABLE IF NOT EXISTS] have run. *)
Definition with_tables (d : database) : database :=
  {| blacklisted_songs := Some (default ∅ (blacklisted_songs d));
     user_playlists := Some (default ∅ (user_playlists d));
     whitelisted_profiles := Some (default ∅ (whitelisted_profiles d)) |}.

(** The connection once [ensure_tables] has run on it. *)
Definition ensured (c : conn) : conn :=
  {| server_db := with_tables (server_db c); server_now := server_now c;
     server_fault := server_fault c; executed := 3 + executed c |}.

(** ** The enrichment client

    [_sp] is a catalog client or [None].  A lookup that raises is [None]:
    every call site wraps the lookup in [try ... except Exception: pass]. *)

Record artist := { a_id : option string; a_name : option string }.

(** What the code reads of a track: [t.get("name")], [t.get("artists")]. *)
Record track_info := { t_name : option string; t_artists : list artist }.

(** What the code reads of a playlist: [p.get("name")] and
    [(p.get("owner") or {}).get("id")]. *)
Record playlist_info := { p_name : option string; p_owner_id : option string }.

Record Spotify := {
  track : string -> option track_info;
  playlist : string -> option playlist_info
}.

(** ** Requests and responses *)

(** A JSON value of the request body, as far as the code looks at it:
    numbers, arrays and objects only through their truthiness. *)
Inductive json :=
  | JNull
  | JBool (b : bool)
  | JStr (s : string)
  | JOther (is_truthy : bool).

Definition json_truthy (j : json) : bool :=
  match j with
  | JNull => false
  | JBool b => b
  | JStr s => negb (Py.str_falsy s)
  | JOther b => b
  end.

(** [request.get_json() or {}], the body being a JSON object or absent:
    the two keys the endpoints read, [None] for a key that is not there. *)
Record payload := { input : option json; blacklisted_key : option json }.

Inductive exn := TypeError | AttributeError.

(** [jsonify({"ok": True, "msg": ...})] and [jsonify({"ok": False,
    "error": ...})]. *)
Inductive body := Msg (text : string) | Error (text : string).

Definition ok (b : body) : bool :=
  match b with Msg _ => true | Error _ => false end.

(** What a view function gives back, or the exception it lets escape. *)
Inductive http_result :=
  | Response (b : body) (status : Z)
  | Unhandled (e : exn).

(** The status code the client sees: the framework answers an exception
    that escapes a view with status 500. *)
Definition status_code (r : http_result) : Z :=
  match r with
  | Response _ s => s
  | Unhandled _ => 500%Z
  end.

(** [(payload.get("input") or "").strip()]: only a string has [strip]. *)
Definition input_text (p : payload) : exn + string :=
  match input p with
  | None => inr (Py.strip "")
  | Some j =>
      if json_truthy j then
        match j with
        | JStr s => inr (Py.strip s)
        | _ => inl AttributeError
        end
      else inr (Py.strip "")
  end.

(** [bool(payload.get("blacklisted", True))] *)
Definition blacklisted_flag_of (p : payload) : bool :=
  match blacklisted_key p with
  | None => true
  | Some j => json_truthy j
  end.

(** Lines 163-165 and 203-205, the same in both endpoints but for the
    expected kind: the id after the second pass.  [SPOTIFY_ID_RE.search]
    raises [TypeError] on [None]. *)
Definition kind_mismatch_correction (expected : string)
    (kind id_or_raw : option string) : exn + option string :=
  if Py.truthy kind && negb (bool_decide (kind = Some expected)) then
    match id_or_raw with
    | None => inl TypeError
    | Some s =>
        match SPOTIFY_ID_RE_search s with
        | Some m => inr (Some m)
        | None => inr id_or_raw
        end
    end
  else inr id_or_raw.

(** ** The endpoints *)

(** What a request runs against: the client [_sp] and what [get_db_conn]
    returns, [None] when no connection can be made. *)
Record world := { _sp : option Spotify; get_db_conn : option conn }.

Section Endpoints.

Variable urlparse : string -> option Urllib.ParseResult.

(** *** [api_blacklist_track] *)

(** Lines 161-165: the id the endpoint goes on with. *)
Definition blacklist_track_id (val : string) : exn + option string :=
  let '(kind, id_or_raw) := extract_id_from_input urlparse val in
  kind_mismatch_correction "track" kind id_or_raw.

(** Lines 169-181: name, first artist's id and name. *)
Definition enrich_track (w : world) (track_id : string)
  : option string * option string * option string :=
  match _sp w with
  | None => (None, None, None)
  | Some sp =>
      match track sp track_id with
      | None => (None, None, None)
      | Some t =>
          match t_artists t with
          | [] => (t_name t, None, None)
          | a :: _ => (t_name t, a_id a, a_name a)
          end
      end
  end.

(** Lines 166-193.  Like every endpoint, it gives the result and the
    connection as the request leaves it; a request that does not come to
    [get_db_conn], or gets no connection, leaves [get_db_conn w].  The
    [conn.close()] of [finally] changes nothing of the server's state. *)
Definition blacklist_track_store (w : world) (track_id : option string)
  : http_result * option conn :=
  match track_id with
  | None | Some EmptyString =>
      (Response (Error "Could not parse track id") 400, get_db_conn w)
  | Some track_id =>
      let '(sname, aid, aname) := enrich_track w track_id in
      match get_db_conn w with
      | None => (Response (Error "DB unavailable") 500, None)
      | Some conn =>
          match (ensure_tables *>
                 upsert_blacklisted_song track_id sname aid aname true) conn with
          | (inr _, conn') =>
              (Response
                 (Msg ("Blacklisted track " ++ track_id ++ " (fixed=true)"))
                 200, Some conn')
          | (inl e, conn') => (Response (Error e) 500, Some conn')
          end
      end
  end.

Definition api_blacklist_track (w : world) (p : payload)
  : http_result * option conn :=
  match input_text p with
  | inl e => (Unhandled e, get_db_conn w)
  | inr val =>
      match blacklist_track_id val with
      | inl e => (Unhandled e, get_db_conn w)
      | inr track_id => blacklist_track_store w track_id
      end
  end.

(** *** [api_blacklist_playlist] *)

(** Lines 201-205. *)
Definition blacklist_playlist_id (val : string) : exn + option string :=
  let '(kind, id_or_raw) := extract_id_from_input urlparse val in
  kind_mismatch_correction "playlist" kind id_or_raw.

(** Lines 209-215. *)
Definition enrich_playlist (w : world) (playlist_id : string) : option string :=
  match _sp w with
  | None => None
  | Some sp =>
      match playlist sp playlist_id with
      | None => None
      | Some pl => p_name pl
      end
  end.

(** Lines 206-227. *)
Definition blacklist_playlist_store (w : world) (blacklisted_flag : bool)
    (playlist_id : option string) : http_result * option conn :=
  match playlist_id with
  | None | Some EmptyString =>
      (Response (Error "Could not parse playlist id") 400, get_db_conn w)
  | Some playlist_id =>
      let pname := enrich_playlist w playlist_id in
      match get_db_conn w with
      | None => (Response (Error "DB unavailable") 500, None)
      | Some conn =>
          match (ensure_tables *>
                 upsert_user_playlist_blacklist playlist_id pname
                   blacklisted_flag) conn with
          | (inr _, conn') =>
              (Response
                 (Msg ("Playlist " ++ playlist_id
                       ++ " upserted with blacklisted="
                       ++ Py.str_of_bool blacklisted_flag))
                 200, Some conn')
          | (inl e, conn') => (Response (Error e) 500, Some conn')
          end
      end
  end.

Definition api_blacklist_playlist (w : world) (p : payload)
  : http_result * option conn :=
  match input_text p with
  | inl e => (Unhandled e, get_db_conn w)
  | inr val =>
      let blacklisted_flag := blacklisted_flag_of p in
      match blacklist_playlist_id val with
      | inl e => (Unhandled e, get_db_conn w)
      | inr playlist_id =>
          blacklist_playlist_store w blacklisted_flag playlist_id
      end
  end.

(** *** [api_whitelist_profile] *)

(** Line 237: whether the owner lookup is tried.  The pattern search
    raises [TypeError] when [candidate_id] is [None]. *)
Definition owner_lookup_wanted (maybe_kind candidate_id : option string)
  : exn + bool :=
  if bool_decide (maybe_kind = Some "playlist") then inr true
  else if negb (Py.truthy maybe_kind) then
    match candidate_id with
    | None => inl TypeError
    | Some s => inr (bool_decide (is_Some (SPOTIFY_ID_RE_search s)))
    end
  else inr false.

(** Lines 238-246: the owner's id takes the place of [candidate_id] when
    the lookup gives a truthy one. *)
Definition owner_redirect (w : world) (maybe_id candidate_id : option string)
  : option string :=
  match _sp w with
  | None => candidate_id
  | Some sp =>
      match maybe_id with
      | None => candidate_id
      | Some pid =>
          match playlist sp pid with
          | None => candidate_id
          | Some pl =>
              if Py.truthy (p_owner_id pl) then p_owner_id pl
              else candidate_id
          end
      end
  end.

(** Lines 233-246: the id the endpoint goes on with. *)
Definition whitelist_profile_id (w : world) (val : string)
  : exn + option string :=
  let '(kind, id_or_raw) := extract_id_from_input urlparse val in
  let candidate_id := id_or_raw in
  let '(maybe_kind, maybe_id) := extract_id_from_input urlparse val in
  match owner_lookup_wanted maybe_kind candidate_id with
  | inl e => inl e
  | inr true => inr (owner_redirect w maybe_id candidate_id)
  | inr false => inr candidate_id
  end.

(** Lines 248-261. *)
Definition whitelist_profile_store (w : world) (candidate_id : option string)
  : http_result * option conn :=
  match candidate_id with
  | None | Some EmptyString =>
      (Response (Error "Could not parse profile or playlist owner id") 400,
       get_db_conn w)
  | Some candidate_id =>
      match get_db_conn w with
      | None => (Response (Error "DB unavailable") 500, None)
      | Some conn =>
          match (ensure_tables *> upsert_whitelisted_profile candidate_id) conn with
          | (inr _, conn') =>
              (Response (Msg ("Whitelisted profile " ++ candidate_id)) 200,
               Some conn')
          | (inl e, conn') => (Response (Error e) 500, Some conn')
          end
      end
  end.

Definition api_whitelist_profile (w : world) (p : payload)
  : http_result * option conn :=
  match input_text p with
  | inl e => (Unhandled e, get_db_conn w)
  | inr val =>
      match whitelist_profile_id w val with
      | inl e => (Unhandled e, get_db_conn w)
      | inr candidate_id => whitelist_profile_store w candidate_id
      end
  end.

End Endpoints.

(** The enrichment client is absent, or its lookup of the playlist [pid]
    raises or gives no owner id. *)
Definition owner_lookup_fails (w : world) (pid : string) : Prop :=
  match _sp w with
  | None => True
  | Some sp =>
      match playlist sp pid with
      | None => True
      | Some pl => Py.truthy (p_owner_id pl) = false
      end
  end.

(** ** Reading the store and its faults *)

(** The text with which the server refuses the first of the next [k]
    statements that it refuses, [None] when it takes them all. *)
Fixpoint first_fault_from (f : nat -> option string) (n k : nat)
  : option string :=
  match k with
  | O => None
  | S k' =>
      match f n with
      | Some e => Some e
      | None => first_fault_from f (S n) k'
      end
  end.

Definition first_fault (c : conn) (k : nat) : option string :=
  first_fault_from (server_fault c) (executed c) k.

(** Every key of every table reads the same on [c'] as on [c]. *)
Definition same_rows (c c' : conn) : Prop :=
  forall id,
    song c' id = song c id
    /\ user_playlist c' id = user_playlist c id
    /\ whitelisted_profile c' id = whitelisted_profile c id.

(** The keys that the calls of a run name, table by table. *)
Fixpoint named_songs (l : list upsert_call) : list string :=
  match l with
  | [] => []
  | CallSong id _ _ _ _ :: l' => id :: named_songs l'
  | _ :: l' => named_songs l'
  end.

Fixpoint named_playlists (l : list upsert_call) : list string :=
  match l with
  | [] => []
  | CallPlaylist id _ _ :: l' => id :: named_playlists l'
  | _ :: l' => named_playlists l'
  end.

Fixpoint named_profiles (l : list upsert_call) : list string :=
  match l with
  | [] => []
  | CallProfile id :: l' => id :: named_profiles l'
  | _ :: l' => named_profiles l'
  end.

(** The flag of the last call of the run that upserts the playlist [id],
    the [fixed] of the last call that upserts the song [id], and the last
    name that is not null among the calls that upsert the song [id]. *)
Fixpoint last_blacklisted (id : string) (l : list upsert_call) : option bool :=
  match l with
  | [] => None
  | k :: l' =>
      match last_blacklisted id l' with
      | Some b => Some b
      | None =>
          match k with
          | CallPlaylist id' _ bl =>
              if bool_decide (id' = id) then Some bl else None
          | _ => None
          end
      end
  end.

Fixpoint last_fixed (id : string) (l : list upsert_call) : option bool :=
  match l with
  | [] => None
  | k :: l' =>
      match last_fixed id l' with
      | Some b => Some b
      | None =>
          match k with
          | CallSong id' _ _ _ fx =>
              if bool_decide (id' = id) then Some fx else None
          | _ => None
          end
      end
  end.

Fixpoint last_song_name (id : string) (l : list upsert_call) : option string :=
  match l with
  | [] => None
  | k :: l' =>
      match last_song_name id l' with
      | Some x => Some x
      | None =>
          match k with
          | CallSong id' sname _ _ _ =>
              if bool_decide (id' = id) then sname else None
          | _ => None
          end
      end
  end.


(** ** The connection string

    Lines 48-59, under the name [get_db_conn] of the source inside [Env]:
    [environ] is [os.environ], and [connect url] is
    [psycopg2.connect(url, sslmode="require")], [None] when it raises. *)

Module Env.

Definition get_db_conn (environ : gmap string string)
    (connect : string -> option conn) : option conn :=
  let db_url :=
    match environ !! "DATABASE_URL" with
    | Some u =>
        if Py.str_falsy u then environ !! "RAILWAY_DATABASE_URL" else Some u
    | None => environ !! "RAILWAY_DATABASE_URL"
    end in
  match db_url with
  | None => None
  | Some u => if Py.str_falsy u then None else connect u
  end.

End Env.

(** The variable is not set, or is set to the empty text. *)
Definition unset (environ : gmap string string) (name : string) : Prop :=
  environ !! name = None \/ environ !! name = Some EmptyString.

(** The world of a process started with [environ], its client being [sp]. *)
Definition world_of (environ : gmap string string)
    (connect : string -> option conn) (sp : option Spotify) : world :=
  {| _sp := sp; get_db_conn := Env.get_db_conn environ connect |}.

(** ** Sample data

    Concrete connections and requests, on which the theorems below are
    run. *)

Definition no_tables : database :=
  {| blacklisted_songs := None; user_playlists := None;
     whitelisted_profiles := None |}.

(** A connection to a server that holds [d], refuses nothing and whose
    clock reads [1000 + n] in the [n]-th statement. *)
Definition sample_conn (d : database) : conn :=
  {| server_db := d;
     server_now := fun n => (1000 + Z.of_nat n)%Z;
     server_fault := fun _ => None;
     executed := 0 |}.

(** The same, the server refusing the [k]-th statement with [e]. *)
Definition refusing_conn (d : database) (k : nat) (e : string) : conn :=
  {| server_db := d;
     server_now := fun n => (1000 + Z.of_nat n)%Z;
     server_fault := fun n => if Nat.eqb n k then Some e else None;
     executed := 0 |}.

(** The same, the clock reading [1000] in every statement. *)
Definition frozen_conn (d : database) : conn :=
  {| server_db := d;
     server_now := fun _ => 1000%Z;
     server_fault := fun _ => None;
     executed := 0 |}.

Definition sample_song : song_row :=
  {| song_name := Some "X"; artist_id := Some "A1"; artist_name := Some "Y";
     fixed := Some false; created_at := Some 7%Z |}.

Definition sample_db : database :=
  {| blacklisted_songs := Some {[ "4iV5W9uYEdYUVa79Axb7Rh" := sample_song ]};
     user_playlists := Some ∅;
     whitelisted_profiles := Some {[ "P1" := {| added_at := Some 5%Z |} ]} |}.

(** A database with one playlist in it. *)
Definition sample_playlist_db : database :=
  {| blacklisted_songs := Some ∅;
     user_playlists :=
       Some {[ "37i9dQZF1DXcBWIGoYBM5M" :=
                 {| playlist_name := Some "Mix"; blacklisted := Some true;
                    updated_at := Some 9%Z |} ]};
     whitelisted_profiles := Some ∅ |}.

(** A client that knows every track as [Song], its first artist having
    the id [AR] and no name. *)
Definition sample_track_client : Spotify :=
  {| track := fun _ =>
       Some {| t_name := Some "Song";
               t_artists :=
                 [ {| a_id := Some "AR"; a_name := None |};
                   {| a_id := Some "AR2"; a_name := Some "Second" |} ] |};
     playlist := fun _ => None |}.

(** The body [{"input": s}]. *)
Definition request (s : string) : payload :=
  {| input := Some (JStr s); blacklisted_key := None |}.

(** A client for which every playlist is owned by [owner]. *)
Definition sample_client (owner : string) : Spotify :=
  {| track := fun _ => None;
     playlist := fun _ =>
       Some {| p_name := Some "Mix"; p_owner_id := Some owner |} |}.

(** * Properties *)

(** ** The store *)

Section StoreFacts.

Implicit Types (c : conn) (d : database) (s : statement).

Lemma accepts_now c k : accepts c (S k) -> server_fault c (executed c) = None.
Proof.
  intros H. specialize (H 0). rewrite Nat.add_0_r in H. apply H. lia.
Qed.

Lemma accepts_sent c d k : accepts c (S k) -> accepts (sent c d) k.
Proof.
  intros H i Hi. cbn. specialize (H (S i)).
  rewrite Nat.add_succ_r in H. apply H. lia.
Qed.

Lemma accepts_weaken c k k' : k' <= k -> accepts c k -> accepts c k'.
Proof. intros Hle H i Hi. apply H. lia. Qed.

Lemma execute_accepted s c d k :
  accepts c (S k) ->
  s (server_now c (executed c)) (server_db c) = inr d ->
  execute s c = (inr tt, sent c d).
Proof.
  intros Ha Hs. unfold execute.
  rewrite (accepts_now _ _ Ha), Hs. reflexivity.
Qed.

Lemma ensure_tables_accepted c k :
  accepts c (3 + k) -> ensure_tables c = (inr tt, ensured c).
Proof.
  intros Ha. unfold ensure_tables, sqls. cbn [execute_all]. unfold bind.
  rewrite (execute_accepted _ c _ (2 + k) Ha eq_refl).
  pose proof (accepts_sent _ (server_db c) _ Ha) as Ha1.
  match goal with |- context [execute create_user_playlists ?c1] =>
    assert (Ha2 : accepts c1 (S (S k))) by (apply accepts_sent; exact Ha);
    rewrite (execute_accepted _ c1 _ (S k) Ha2 eq_refl);
    match goal with |- context [execute create_whitelisted_profiles ?c2] =>
      assert (Ha3 : accepts c2 (S k)) by (apply accepts_sent; exact Ha2);
      rewrite (execute_accepted _ c2 _ k Ha3 eq_refl)
    end
  end.
  unfold ret, ensured, with_tables, sent. cbn.
  destruct (server_db c) as [[?|] [?|] [?|]]; reflexivity.
Qed.

Lemma accepts_ensured c k : accepts c (3 + k) -> accepts (ensured c) k.
Proof.
  intros H i Hi. cbn. specialize (H (3 + i)).
  replace (executed c + (3 + i)) with (S (S (S (executed c + i)))) in H by lia.
  apply H. lia.
Qed.

Lemma upsert_blacklisted_song_accepted c k t song_id sname aid aname fx :
  accepts c (S k) ->
  blacklisted_songs (server_db c) = Some t ->
  upsert_blacklisted_song song_id sname aid aname fx c =
    (inr tt,
     sent c {| blacklisted_songs :=
                 Some (<[song_id :=
                           merge_song (server_now c (executed c))
                             sname aid aname fx (t !! song_id)]> t);
               user_playlists := user_playlists (server_db c);
               whitelisted_profiles := whitelisted_profiles (server_db c) |}).
Proof.
  intros Ha Ht. unfold upsert_blacklisted_song.
  apply (execute_accepted _ _ _ k Ha).
  unfold sql_upsert_blacklisted_song. rewrite Ht. reflexivity.
Qed.

Lemma upsert_user_playlist_blacklist_accepted c k t playlist_id pname bl :
  accepts c (S k) ->
  user_playlists (server_db c) = Some t ->
  upsert_user_playlist_blacklist playlist_id pname bl c =
    (inr tt,
     sent c {| blacklisted_songs := blacklisted_songs (server_db c);
               user_playlists :=
                 Some (<[playlist_id :=
                           merge_playlist (server_now c (executed c))
                             pname bl (t !! playlist_id)]> t);
               whitelisted_profiles := whitelisted_profiles (server_db c) |}).
Proof.
  intros Ha Ht. unfold upsert_user_playlist_blacklist.
  apply (execute_accepted _ _ _ k Ha).
  unfold sql_upsert_user_playlist. rewrite Ht. reflexivity.
Qed.

Lemma upsert_whitelisted_profile_accepted c k t profile_id :
  accepts c (S k) ->
  whitelisted_profiles (server_db c) = Some t ->
  upsert_whitelisted_profile profile_id c =
    (inr tt,
     sent c {| blacklisted_songs := blacklisted_songs (server_db c);
               user_playlists := user_playlists (server_db c);
               whitelisted_profiles :=
                 Some (insert_profile (server_now c (executed c))
                         profile_id t) |}).
Proof.
  intros Ha Ht. unfold upsert_whitelisted_profile.
  apply (execute_accepted _ _ _ k Ha).
  unfold sql_upsert_whitelisted_profile. rewrite Ht. reflexivity.
Qed.

End StoreFacts.

Section UpsertClaims.

Implicit Types (c : conn) (song_id playlist_id profile_id : string).

Local Open Scope Z_scope.

(** An upsert that passes a value for a name field stores that value. *)
Lemma upsert_blacklisted_song_stores c t song_id x aid aname fx :
  accepts c 1 ->
  blacklisted_songs (server_db c) = Some t ->
  exists c' r',
    upsert_blacklisted_song song_id (Some x) aid aname fx c = (inr tt, c')
    /\ song c' song_id = Some r'
    /\ song_name r' = Some x.
Proof.
  intros Ha Ht.
  rewrite (upsert_blacklisted_song_accepted c 0 t _ _ _ _ _ Ha Ht).
  eexists _, _. split; [reflexivity|]. unfold song. cbn.
  rewrite lookup_insert_eq. split; [reflexivity|].
  destruct (t !! song_id); reflexivity.
Qed.

(** C3. An upsert of [blacklisted_songs] that passes null for [song_name],
    [artist_id] or [artist_name] leaves the value the row already holds
    in that field: no stored value is replaced by null.  The statement
    runs on a connection that accepts it, against a row [r] stored under
    the same [song_id]. *)
Theorem upsert_blacklisted_song_null_keeps_stored
    c song_id sname aid aname fx r :
  accepts c 1 ->
  song c song_id = Some r ->
  exists c' r',
    upsert_blacklisted_song song_id sname aid aname fx c = (inr tt, c')
    /\ song c' song_id = Some r'
    /\ (sname = None -> song_name r' = song_name r)
    /\ (aid = None -> artist_id r' = artist_id r)
    /\ (aname = None -> artist_name r' = artist_name r).
Proof.
  intros Ha Hr. unfold song in Hr.
  destruct (blacklisted_songs (server_db c)) as [t|] eqn:Ht; [|discriminate].
  rewrite (upsert_blacklisted_song_accepted c 0 t _ _ _ _ _ Ha Ht).
  eexists _, _. split; [reflexivity|]. unfold song. cbn.
  rewrite lookup_insert_eq, Hr. split; [reflexivity|]. cbn.
  repeat split; intros ->; reflexivity.
Qed.

Lemma upsert_blacklisted_song_null_keeps_stored_witness :
  exists c' r',
    upsert_blacklisted_song "4iV5W9uYEdYUVa79Axb7Rh" None None None true
      (sample_conn sample_db) = (inr tt, c')
    /\ song c' "4iV5W9uYEdYUVa79Axb7Rh" = Some r'
    /\ song_name r' = Some "X"%string
    /\ artist_id r' = Some "A1"%string
    /\ artist_name r' = Some "Y"%string.
Proof.
  destruct (upsert_blacklisted_song_null_keeps_stored
              (sample_conn sample_db) "4iV5W9uYEdYUVa79Axb7Rh"
              None None None true sample_song)
    as (c' & r' & Hrun & Hrow & Hn & Ha & Han).
  - intros i Hi. reflexivity.
  - vm_compute. reflexivity.
  - exists c', r'. repeat split; auto.
Defined.

(** C4, amended. Upserting a playlist with [blacklisted=true] and then
    with [blacklisted=false] leaves the flag false, and each write sets
    [updated_at] to its [NOW()]: [updated_at] is strictly greater after
    the second write than after the first when the clock reads later in
    the second statement than in the first.  The two statements run one
    after the other on a connection that accepts them. *)
Theorem upsert_user_playlist_last_flag_wins c t playlist_id pname1 pname2 :
  accepts c 2 ->
  user_playlists (server_db c) = Some t ->
  server_now c (executed c) < server_now c (S (executed c)) ->
  exists c1 c2 r1 r2 u1 u2,
    upsert_user_playlist_blacklist playlist_id pname1 true c = (inr tt, c1)
    /\ upsert_user_playlist_blacklist playlist_id pname2 false c1 = (inr tt, c2)
    /\ user_playlist c1 playlist_id = Some r1
    /\ user_playlist c2 playlist_id = Some r2
    /\ blacklisted r1 = Some true
    /\ blacklisted r2 = Some false
    /\ updated_at r1 = Some u1
    /\ updated_at r2 = Some u2
    /\ u1 = server_now c (executed c)
    /\ u2 = server_now c (S (executed c))
    /\ u1 < u2.
Proof.
  intros Ha Ht Hclock.
  pose proof (upsert_user_playlist_blacklist_accepted
                c 1 t playlist_id pname1 true Ha Ht) as H1.
  set (c1 := sent c _) in H1.
  assert (Ha1 : accepts c1 1) by (apply accepts_sent; exact Ha).
  pose proof (upsert_user_playlist_blacklist_accepted
                c1 0 _ playlist_id pname2 false Ha1 eq_refl) as H2.
  exists c1. eexists _, _, _, _, _.
  split; [exact H1|]. split; [exact H2|].
  unfold user_playlist. cbn. rewrite !lookup_insert_eq.
  split; [reflexivity|]. split; [reflexivity|].
  destruct (t !! playlist_id); cbn; repeat split; try reflexivity; exact Hclock.
Qed.

Lemma upsert_user_playlist_last_flag_wins_witness :
  exists c1 c2 r1 r2 u1 u2,
    upsert_user_playlist_blacklist "37i9dQZF1DXcBWIGoYBM5M" (Some "Mix"%string)
      true (sample_conn sample_db) = (inr tt, c1)
    /\ upsert_user_playlist_blacklist "37i9dQZF1DXcBWIGoYBM5M" None false c1
       = (inr tt, c2)
    /\ user_playlist c1 "37i9dQZF1DXcBWIGoYBM5M" = Some r1
    /\ user_playlist c2 "37i9dQZF1DXcBWIGoYBM5M" = Some r2
    /\ blacklisted r1 = Some true
    /\ blacklisted r2 = Some false
    /\ updated_at r1 = Some u1
    /\ updated_at r2 = Some u2
    /\ u1 = 1000
    /\ u2 = 1001
    /\ u1 < u2.
Proof.
  apply (upsert_user_playlist_last_flag_wins (sample_conn sample_db) ∅).
  - intros i Hi. reflexivity.
  - reflexivity.
  - vm_compute. reflexivity.
Defined.

(** C4, as the claim has it, fails: [updated_at] is what [NOW()] reads,
    and nothing in the statement makes the second reading greater.  On a
    clock that reads the same in both statements, the flag ends false and
    [updated_at] is the same after the second write as after the first. *)
Lemma upsert_user_playlist_frozen_clock :
  exists c1 c2 r1 r2,
    upsert_user_playlist_blacklist "37i9dQZF1DXcBWIGoYBM5M" None true
      (frozen_conn sample_db) = (inr tt, c1)
    /\ upsert_user_playlist_blacklist "37i9dQZF1DXcBWIGoYBM5M" None false c1
       = (inr tt, c2)
    /\ user_playlist c1 "37i9dQZF1DXcBWIGoYBM5M" = Some r1
    /\ user_playlist c2 "37i9dQZF1DXcBWIGoYBM5M" = Some r2
    /\ blacklisted r2 = Some false
    /\ updated_at r1 = Some 1000
    /\ updated_at r2 = Some 1000
    /\ ~ (1000 < 1000).
Proof.
  eexists _, _, _, _.
  split; [reflexivity|]. split; [reflexivity|].
  split; [reflexivity|]. split; [reflexivity|].
  split; [reflexivity|]. split; [reflexivity|].
  split; [reflexivity | lia].
Qed.

(** C6. [created_at] of a song and [added_at] of a profile are set when
    the row is first inserted and kept by an upsert of a key that is
    already there; whitelisting a profile that is already there leaves the
    whole database as it was. *)
Theorem upsert_keeps_created_at_and_added_at
    c ts tp song_id sname aid aname fx profile_id :
  accepts c 1 ->
  blacklisted_songs (server_db c) = Some ts ->
  whitelisted_profiles (server_db c) = Some tp ->
  (exists c' r',
      upsert_blacklisted_song song_id sname aid aname fx c = (inr tt, c')
      /\ song c' song_id = Some r'
      /\ created_at r' =
           match ts !! song_id with
           | Some r => created_at r
           | None => Some (server_now c (executed c))
           end)
  /\ (exists c',
      upsert_whitelisted_profile profile_id c = (inr tt, c')
      /\ match tp !! profile_id with
         | Some r =>
             server_db c' = server_db c
             /\ whitelisted_profile c' profile_id = Some r
         | None =>
             whitelisted_profile c' profile_id =
               Some {| added_at := Some (server_now c (executed c)) |}
         end).
Proof.
  intros Ha Hs Hp. split.
  - rewrite (upsert_blacklisted_song_accepted c 0 ts _ _ _ _ _ Ha Hs).
    eexists _, _. split; [reflexivity|]. unfold song. cbn.
    rewrite lookup_insert_eq. split; [reflexivity|].
    destruct (ts !! song_id); reflexivity.
  - rewrite (upsert_whitelisted_profile_accepted c 0 tp _ Ha Hp).
    eexists. split; [reflexivity|].
    unfold whitelisted_profile, insert_profile. cbn.
    destruct (tp !! profile_id) as [r|] eqn:Hr.
    + split; [|exact Hr].
      destruct (server_db c) as [a b w]. cbn in *. rewrite Hp. reflexivity.
    + apply lookup_insert_eq.
Qed.

Lemma upsert_keeps_created_at_and_added_at_witness :
  (exists c' r',
      upsert_blacklisted_song "4iV5W9uYEdYUVa79Axb7Rh" (Some "Z"%string)
        None None true (sample_conn sample_db) = (inr tt, c')
      /\ song c' "4iV5W9uYEdYUVa79Axb7Rh" = Some r'
      /\ created_at r' = Some 7)
  /\ (exists c',
      upsert_whitelisted_profile "P1" (sample_conn sample_db) = (inr tt, c')
      /\ server_db c' = sample_db
      /\ whitelisted_profile c' "P1" = Some {| added_at := Some 5 |}).
Proof.
  assert (Ha : accepts (sample_conn sample_db) 1)
    by (intros i Hi; reflexivity).
  exact (upsert_keeps_created_at_and_added_at (sample_conn sample_db)
           {[ "4iV5W9uYEdYUVa79Axb7Rh"%string := sample_song ]}
           {[ "P1"%string := {| added_at := Some 5 |} ]}
           "4iV5W9uYEdYUVa79Axb7Rh" (Some "Z"%string) None None true "P1"
           Ha eq_refl eq_refl).
Defined.

(** One call on a connection that accepts it and has the tables: it
    returns, the tables are still there, and every row of
    [blacklisted_songs] keeps its [created_at], every row of
    [whitelisted_profiles] stays as it is. *)
Lemma run_call_keeps_timestamps c (k : upsert_call) :
  accepts c 1 ->
  has_tables (server_db c) ->
  exists c',
    run_call k c = (inr tt, c')
    /\ c' = sent c (server_db c')
    /\ has_tables (server_db c')
    /\ (forall id r, song c id = Some r ->
         exists r', song c' id = Some r' /\ created_at r' = created_at r)
    /\ (forall id r, whitelisted_profile c id = Some r ->
         whitelisted_profile c' id = Some r).
Proof.
  intros Ha ([ts Hs] & [tp Hp] & [tw Hw]).
  destruct k as [sid sname aid aname fx | pid pname bl | wid]; cbn [run_call].
  - rewrite (upsert_blacklisted_song_accepted c 0 ts _ _ _ _ _ Ha Hs).
    eexists. split; [reflexivity|]. split; [reflexivity|].
    unfold has_tables, song, whitelisted_profile. cbn. rewrite Hs, Hp, Hw.
    split; [eauto|]. split; [|intros id r Hr; exact Hr].
    intros id r Hr. destruct (decide (sid = id)) as [->|Hne].
    + rewrite lookup_insert_eq, Hr. eexists. split; reflexivity.
    + rewrite lookup_insert_ne by exact Hne. eauto.
  - rewrite (upsert_user_playlist_blacklist_accepted c 0 tp _ _ _ Ha Hp).
    eexists. split; [reflexivity|]. split; [reflexivity|].
    unfold has_tables, song, whitelisted_profile. cbn. rewrite Hs, Hw.
    split; [eauto|]. split; [eauto|]. intros id r Hr; exact Hr.
  - rewrite (upsert_whitelisted_profile_accepted c 0 tw _ Ha Hw).
    eexists. split; [reflexivity|]. split; [reflexivity|].
    unfold has_tables, song, whitelisted_profile. cbn. rewrite Hs, Hp, Hw.
    split; [eauto|]. split; [eauto|].
    intros id r Hr. unfold insert_profile.
    destruct (tw !! wid) eqn:Hwid; [exact Hr|].
    rewrite lookup_insert_ne; [exact Hr|]. intros ->. congruence.
Qed.

(** X22. However many upserts follow, of whatever keys: a song that is in
    the table keeps its [created_at], and a whitelisted profile keeps its
    row. *)
Lemma run_calls_keep_timestamps (l : list upsert_call) :
  forall c,
    accepts c (length l) ->
    has_tables (server_db c) ->
    exists c',
      run_calls l c = (inr tt, c')
      /\ (forall id r, song c id = Some r ->
           exists r', song c' id = Some r' /\ created_at r' = created_at r)
      /\ (forall id r, whitelisted_profile c id = Some r ->
           whitelisted_profile c' id = Some r).
Proof.
  induction l as [|k l IH]; intros c Ha Ht.
  - exists c. split; [reflexivity|]. split; eauto.
  - cbn [length] in Ha.
    assert (Hk : accepts c 1)
      by (apply (accepts_weaken c (S (length l))); [lia | exact Ha]).
    destruct (run_call_keeps_timestamps c k Hk Ht)
      as (c1 & Hrun & Hc1 & Ht1 & Hsong1 & Hprof1).
    assert (Ha1 : accepts c1 (length l))
      by (rewrite Hc1; apply accepts_sent; exact Ha).
    destruct (IH c1 Ha1 Ht1) as (c2 & Hrun2 & Hsong2 & Hprof2).
    exists c2. cbn [run_calls]. unfold bind. rewrite Hrun.
    split; [exact Hrun2|]. split.
    + intros id r Hr. destruct (Hsong1 id r Hr) as (r1 & Hr1 & Hc).
      destruct (Hsong2 id r1 Hr1) as (r2 & Hr2 & Hc').
      exists r2. split; [exact Hr2 | congruence].
    + intros id r Hr. apply Hprof2, Hprof1, Hr.
Qed.

End UpsertClaims.

(** ** The schema *)

Section SchemaClaims.

(** C7, as the claim has it, fails: the column [fixed] of
    [blacklisted_songs] is declared [DEFAULT false], so a row inserted
    with only its key has [fixed = false]. *)
Lemma fixed_column_default_not_true :
  col_default <$> column_of blacklisted_songs_def "fixed"
    = Some (DefaultBool false)
  /\ assoc "fixed"
       (insert_values blacklisted_songs_def 1000
          [("song_id", VText "4iV5W9uYEdYUVa79Axb7Rh")])
     = Some (VBool false)
  /\ assoc "fixed"
       (insert_values blacklisted_songs_def 1000
          [("song_id", VText "4iV5W9uYEdYUVa79Axb7Rh")])
     <> Some (VBool true).
Proof. repeat split; discriminate. Qed.

(** C7, amended. [fixed] is a boolean column whose default is false: an
    insert that does not name it stores false.  The value true is the
    default of the parameter [fixed] of [upsert_blacklisted_song], and the
    upsert always names the column: the row it leaves carries the value it
    was called with. *)
Theorem fixed_column_default_false now given :
  assoc "fixed" given = None ->
  col_type <$> column_of blacklisted_songs_def "fixed" = Some SqlBoolean
  /\ assoc "fixed" (insert_values blacklisted_songs_def now given)
     = Some (VBool false)
  /\ upsert_blacklisted_song_fixed_default = true
  /\ (forall sname aid aname fx old,
        fixed (merge_song now sname aid aname fx old) = Some fx).
Proof.
  intros Hg. split; [reflexivity|]. split.
  - unfold insert_values. cbn. rewrite Hg. reflexivity.
  - split; [reflexivity|]. intros sname aid aname fx [r|]; reflexivity.
Qed.

(** The [INSERT] of [upsert_blacklisted_song] names all six columns: the
    row it builds for a new key is the one the table definition gives for
    those values, and no column default comes into it. *)
Lemma upsert_insert_names_every_column now now' song_id sname aid aname fx :
  song_values song_id (merge_song now sname aid aname fx None)
  = insert_values blacklisted_songs_def now'
      [ ("song_id", VText song_id); ("song_name", text_value sname);
        ("artist_id", text_value aid); ("artist_name", text_value aname);
        ("fixed", VBool fx); ("created_at", VTime now) ].
Proof. reflexivity. Qed.

Lemma fixed_column_default_false_witness :
  assoc "fixed"
    (insert_values blacklisted_songs_def 1000
       [("song_id", VText "4iV5W9uYEdYUVa79Axb7Rh")])
  = Some (VBool false).
Proof.
  apply (fixed_column_default_false 1000
           [("song_id"%string, VText "4iV5W9uYEdYUVa79Axb7Rh")]).
  reflexivity.
Defined.

End SchemaClaims.

(** ** The endpoints on an empty input and without a store *)

Section RequestClaims.

Variable urlparse : string -> option Urllib.ParseResult.

(** C1. On the input [""] the two blacklist endpoints answer 400 with
    [ok] false and leave the connection untouched.  [api_whitelist_profile]
    does not: the resolver gives [(None, None)], line 237 hands [None] to
    the pattern search, and the [TypeError] escapes the view, so the
    client gets status 500.  No statement is sent in any of the three. *)
Theorem empty_input_responses (w : world) (b : option json) :
  let p := {| input := Some (JStr ""); blacklisted_key := b |} in
  api_blacklist_track urlparse w p
    = (Response (Error "Could not parse track id") 400, get_db_conn w)
  /\ api_blacklist_playlist urlparse w p
    = (Response (Error "Could not parse playlist id") 400, get_db_conn w)
  /\ api_whitelist_profile urlparse w p = (Unhandled TypeError, get_db_conn w)
  /\ status_code (fst (api_whitelist_profile urlparse w p)) = 500%Z.
Proof. repeat split. Qed.

(** C8, amended. Without a connection, a request whose input gives a
    non-empty id is answered 500 with the error [DB unavailable], in each
    of the three endpoints, whatever the enrichment gave. *)
Theorem no_connection_db_unavailable (w : world) (p : payload)
    (val id : string) :
  get_db_conn w = None ->
  input_text p = inr val ->
  id <> EmptyString ->
  (blacklist_track_id urlparse val = inr (Some id) ->
   api_blacklist_track urlparse w p
     = (Response (Error "DB unavailable") 500, None))
  /\ (blacklist_playlist_id urlparse val = inr (Some id) ->
      api_blacklist_playlist urlparse w p
        = (Response (Error "DB unavailable") 500, None))
  /\ (whitelist_profile_id urlparse w val = inr (Some id) ->
      api_whitelist_profile urlparse w p
        = (Response (Error "DB unavailable") 500, None)).
Proof.
  intros Hconn Hval Hid.
  destruct id as [|ch id']; [congruence|].
  repeat split; intros Hres.
  - unfold api_blacklist_track. rewrite Hval, Hres.
    unfold blacklist_track_store.
    destruct (enrich_track w (String ch id')) as [[? ?] ?].
    rewrite Hconn. reflexivity.
  - unfold api_blacklist_playlist. rewrite Hval. cbn zeta. rewrite Hres.
    unfold blacklist_playlist_store. rewrite Hconn. reflexivity.
  - unfold api_whitelist_profile. rewrite Hval, Hres.
    unfold whitelist_profile_store. rewrite Hconn. reflexivity.
Qed.

End RequestClaims.

(** C8, as the claim has it, fails: an input without a usable id is
    answered 400 before the store is asked for a connection. *)
Lemma no_connection_empty_input_is_400 :
  let w := {| _sp := None; get_db_conn := None |} in
  api_blacklist_track Urllib.urlparse w (request "")
    = (Response (Error "Could not parse track id") 400, None)
  /\ status_code (fst (api_blacklist_track Urllib.urlparse w (request "")))
     <> 500%Z.
Proof. split; [reflexivity | discriminate]. Qed.

Lemma no_connection_db_unavailable_witness :
  let w := {| _sp := None; get_db_conn := None |} in
  let p := request "spotify:track:4iV5W9uYEdYUVa79Axb7Rh" in
  api_blacklist_track Urllib.urlparse w p
    = (Response (Error "DB unavailable") 500, None)
  /\ api_blacklist_playlist Urllib.urlparse w p
    = (Response (Error "DB unavailable") 500, None)
  /\ api_whitelist_profile Urllib.urlparse w p
    = (Response (Error "DB unavailable") 500, None).
Proof.
  intros w p.
  destruct (no_connection_db_unavailable Urllib.urlparse w p
              "spotify:track:4iV5W9uYEdYUVa79Axb7Rh"
              "4iV5W9uYEdYUVa79Axb7Rh")
    as (Ht & Hp & Hw).
  - reflexivity.
  - reflexivity.
  - discriminate.
  - split; [apply Ht; reflexivity|].
    split; [apply Hp; reflexivity | apply Hw; reflexivity].
Defined.

(** ** The resolver on the URI form *)

Section StringFacts.

Variable p : ascii -> bool.
Variable sep : ascii.

Lemma split_not_nil (s : string) : Py.split sep s <> [].
Proof.
  destruct s as [|c s]; cbn; [discriminate|].
  destruct (Ascii.eqb c sep); [discriminate|].
  destruct (Py.split sep s); discriminate.
Qed.

Lemma split_cons_other (c : ascii) (s : string) :
  Ascii.eqb c sep = false ->
  Py.split sep (String c s) =
    match Py.split sep s with
    | [] => [String c EmptyString]
    | x :: xs => String c x :: xs
    end.
Proof. intros Hc. cbn. rewrite Hc. reflexivity. Qed.

(** [rstrip] keeps a first character that is followed by something it
    keeps, or that is not in the stripped class. *)
Lemma rstrip_by_cons (c : ascii) (s : string) :
  Py.rstrip_by p s <> EmptyString \/ p c = false ->
  Py.rstrip_by p (String c s) = String c (Py.rstrip_by p s).
Proof.
  intros H. cbn. destruct (Py.rstrip_by p s) as [|c' r].
  - destruct H as [H|H]; [congruence|]. rewrite H. reflexivity.
  - reflexivity.
Qed.

Lemma rstrip_by_fixed_tail (c : ascii) (x : string) :
  Py.rstrip_by p (String c x) = String c x -> Py.rstrip_by p x = x.
Proof.
  cbn. destruct (Py.rstrip_by p x) as [|c' r].
  - destruct (p c); [discriminate|]. intros H. injection H as <-. reflexivity.
  - intros H. injection H as <-. reflexivity.
Qed.

Lemma rstrip_by_fixed_head (c : ascii) :
  Py.rstrip_by p (String c EmptyString) = String c EmptyString -> p c = false.
Proof. cbn. destruct (p c); [discriminate | reflexivity]. Qed.

(** Stripping the right end leaves every segment before the last as it
    is, and a segment that stripping does not change stays too. *)
Lemma split_rstrip_prefix (s : string) :
  p sep = false ->
  forall pre x l,
    Py.split sep s = pre ++ x :: l ->
    Py.rstrip_by p x = x ->
    exists l', Py.split sep (Py.rstrip_by p s) = pre ++ x :: l'.
Proof.
  intros Hsep. induction s as [|c s IH]; intros pre x l Hs Hx.
  - cbn in Hs. destruct pre as [|a [|b pre]]; cbn in Hs.
    + injection Hs as <- <-. exists []. reflexivity.
    + discriminate.
    + discriminate.
  - cbn in Hs. destruct (Ascii.eqb c sep) eqn:Hc.
    + apply Ascii.eqb_eq in Hc. subst c.
      rewrite rstrip_by_cons by (right; exact Hsep).
      cbn. rewrite Ascii.eqb_refl.
      destruct pre as [|a pre]; cbn in Hs.
      * injection Hs as <- <-. eexists. reflexivity.
      * injection Hs as <- Hs.
        destruct (IH pre x l Hs Hx) as [l' Hl']. exists l'.
        rewrite Hl'. reflexivity.
    + destruct (Py.split sep s) as [|y ys] eqn:Hsplit;
        [exfalso; eapply split_not_nil; exact Hsplit|].
      destruct pre as [|a pre]; cbn in Hs.
      * injection Hs as <- <-.
        pose proof (rstrip_by_fixed_tail _ _ Hx) as Hy.
        destruct (IH [] y ys eq_refl Hy) as [l' Hl']. cbn in Hl'.
        destruct (decide (Py.rstrip_by p s = EmptyString)) as [Hr|Hr].
        -- rewrite Hr in Hl'. cbn in Hl'. injection Hl' as <- <-.
           pose proof (rstrip_by_fixed_head _ Hx) as Hpc.
           cbn. rewrite Hr, Hpc. cbn. rewrite Hc. exists []. reflexivity.
        -- rewrite rstrip_by_cons by (left; exact Hr).
           rewrite (split_cons_other _ _ Hc), Hl'.
           exists l'. reflexivity.
      * injection Hs as <- ->.
        destruct (IH (y :: pre) x l eq_refl Hx) as [l' Hl'].
        assert (Hr : Py.rstrip_by p s <> EmptyString).
        { intros E. rewrite E in Hl'. cbn in Hl'. destruct pre; discriminate. }
        rewrite rstrip_by_cons by (left; exact Hr).
        rewrite (split_cons_other _ _ Hc), Hl'.
        exists l'. reflexivity.
Qed.

(** A text of at least two segments starts with the first one and the
    separator. *)
Lemma split_startswith (s : string) :
  forall a b l,
    Py.split sep s = a :: b :: l ->
    Py.startswith (a ++ String sep EmptyString) s = true.
Proof.
  induction s as [|c s IH]; intros a b l Hs; cbn in Hs.
  - discriminate.
  - destruct (Ascii.eqb c sep) eqn:Hc.
    + injection Hs as <- _. apply Ascii.eqb_eq in Hc. subst c.
      change (Ascii.eqb sep sep && true = true).
      rewrite Ascii.eqb_refl. reflexivity.
    + destruct (Py.split sep s) as [|y ys] eqn:Hsplit; [discriminate|].
      injection Hs as <- ->.
      change (Ascii.eqb c c
              && Py.startswith (y ++ String sep EmptyString) s = true).
      rewrite Ascii.eqb_refl. apply (IH y b l eq_refl).
Qed.

End StringFacts.

Section ResolverClaims.

Lemma is_alnum_not_space (c : ascii) : is_alnum c = true -> Py.isspace c = false.
Proof.
  destruct c as [[] [] [] [] [] [] [] []]; cbn; intros H;
    first [reflexivity | discriminate H].
Qed.

Lemma take_alnum_rstrip (n : nat) :
  forall s, take_alnum n s = Some s -> Py.rstrip_by Py.isspace s = s.
Proof.
  induction n as [|n IH]; intros s Hs.
  - cbn in Hs. injection Hs as <-. reflexivity.
  - destruct s as [|c s]; cbn in Hs; [discriminate|].
    destruct (is_alnum c) eqn:Hc; [|discriminate].
    destruct (take_alnum n s) as [t|] eqn:Ht; [|discriminate].
    injection Hs as ->.
    rewrite rstrip_by_cons by (right; apply is_alnum_not_space; exact Hc).
    rewrite (IH s Ht). reflexivity.
Qed.

(** C2, as the claim has it, fails: the URI form is taken only for the
    scheme [spotify].  With another scheme token the text falls through
    to the pattern search, and the kind is [None]. *)
Lemma other_scheme_loses_kind :
  Py.split ":" "foo:track:4iV5W9uYEdYUVa79Axb7Rh"
    = ["foo"; "track"; "4iV5W9uYEdYUVa79Axb7Rh"]
  /\ is_id22 "4iV5W9uYEdYUVa79Axb7Rh"
  /\ extract_id_from_input Urllib.urlparse "foo:track:4iV5W9uYEdYUVa79Axb7Rh"
     = (None, Some "4iV5W9uYEdYUVa79Axb7Rh")
  /\ extract_id_from_input Urllib.urlparse "foo:track:4iV5W9uYEdYUVa79Axb7Rh"
     <> (Some "track", Some "4iV5W9uYEdYUVa79Axb7Rh").
Proof.
  split; [reflexivity|]. split; [reflexivity|].
  split; [vm_compute; reflexivity | vm_compute; discriminate].
Qed.

Variable urlparse : string -> option Urllib.ParseResult.

(** C2, amended. For every input whose colon-delimited segments are
    [spotify], a kind, an id of 22 alphanumeric characters and possibly
    more, the resolver returns that kind and that id: segment 1 and
    segment 2. *)
Theorem extract_id_from_input_spotify_uri (value kind id : string)
    (rest : list string) :
  Py.split ":" value = "spotify" :: kind :: id :: rest ->
  is_id22 id ->
  extract_id_from_input urlparse value = (Some kind, Some id).
Proof.
  intros Hsplit Hid.
  assert (Hrid : Py.rstrip_by Py.isspace id = id)
    by (eapply take_alnum_rstrip; exact Hid).
  destruct value as [|c value]; [discriminate Hsplit|].
  assert (Hc : c = "s"%char).
  { cbn in Hsplit. destruct (Ascii.eqb c ":"); [discriminate|].
    destruct (Py.split ":" value); injection Hsplit; congruence. }
  subst c. unfold extract_id_from_input.
  change (Py.str_falsy (String "s" value)) with false. cbv iota zeta.
  change (Py.strip (String "s" value))
    with (Py.rstrip_by Py.isspace (String "s" value)).
  destruct (split_rstrip_prefix Py.isspace ":" (String "s" value) eq_refl
              ["spotify"; kind] id rest Hsplit Hrid) as [l' Hl'].
  pose proof (split_startswith ":" _ "spotify" kind (id :: l') Hl') as Hpre.
  change (String.append "spotify" (String ":" EmptyString))
    with "spotify:" in Hpre.
  unfold uri_form. rewrite Hpre, Hl'. reflexivity.
Qed.

End ResolverClaims.

Lemma extract_id_from_input_spotify_uri_witness :
  extract_id_from_input Urllib.urlparse "spotify:track:4iV5W9uYEdYUVa79Axb7Rh"
  = (Some "track", Some "4iV5W9uYEdYUVa79Axb7Rh").
Proof.
  apply (extract_id_from_input_spotify_uri Urllib.urlparse
           "spotify:track:4iV5W9uYEdYUVa79Axb7Rh" "track"
           "4iV5W9uYEdYUVa79Axb7Rh" []).
  - reflexivity.
  - reflexivity.
Defined.

(** ** The second pass and the owner redirect *)

Section PatternFacts.

Lemma take_alnum_idem (n : nat) :
  forall s t, take_alnum n s = Some t -> take_alnum n t = Some t.
Proof.
  induction n as [|n IH]; intros s t Hs.
  - cbn in Hs. injection Hs as <-. reflexivity.
  - destruct s as [|c s]; cbn in Hs; [discriminate|].
    destruct (is_alnum c) eqn:Hc; [|discriminate].
    destruct (take_alnum n s) as [t'|] eqn:Ht; [|discriminate].
    injection Hs as <-. cbn. rewrite Hc, (IH s t' Ht). reflexivity.
Qed.

(** What the pattern search finds is a token of 22 alphanumerics. *)
Lemma SPOTIFY_ID_RE_search_is_id22 (s t : string) :
  SPOTIFY_ID_RE_search s = Some t -> is_id22 t.
Proof.
  induction s as [|c s IH]; intros H.
  - discriminate.
  - change (match take_alnum 22 (String c s) with
            | Some t' => Some t'
            | None => SPOTIFY_ID_RE_search s
            end = Some t) in H.
    destruct (take_alnum 22 (String c s)) as [t'|] eqn:Ht.
    + injection H as ->. exact (take_alnum_idem 22 _ _ Ht).
    + exact (IH H).
Qed.

(** On a token of 22 alphanumerics the search finds the token itself. *)
Lemma SPOTIFY_ID_RE_search_id22 (id : string) :
  is_id22 id -> SPOTIFY_ID_RE_search id = Some id.
Proof.
  unfold is_id22. intros H. destruct id as [|c id]; [discriminate|].
  change (match take_alnum 22 (String c id) with
          | Some t' => Some t'
          | None => SPOTIFY_ID_RE_search id
          end = Some (String c id)).
  rewrite H. reflexivity.
Qed.

Lemma is_id22_not_empty (id : string) : is_id22 id -> id <> EmptyString.
Proof. intros H ->. discriminate H. Qed.

End PatternFacts.

Section ProfileStoreFacts.

Lemma insert_profile_lookup now id (t : gmap string profile_row) :
  is_Some (insert_profile now id t !! id).
Proof.
  unfold insert_profile. destruct (t !! id) eqn:H.
  - rewrite H. eauto.
  - rewrite lookup_insert_eq. eauto.
Qed.

Lemma insert_profile_new now id (t : gmap string profile_row) :
  t !! id = None ->
  insert_profile now id t !! id = Some {| added_at := Some now |}.
Proof. intros H. unfold insert_profile. rewrite H. apply lookup_insert_eq. Qed.

Lemma insert_profile_other now id k (t : gmap string profile_row) :
  k <> id -> insert_profile now id t !! k = t !! k.
Proof.
  intros H. unfold insert_profile. destruct (t !! id); [reflexivity|].
  apply lookup_insert_ne. congruence.
Qed.

(** What lines 248-261 do with a non-empty id on a connection that takes
    the four statements of the request. *)
Lemma whitelist_profile_store_written (w : world) (conn : conn) (id : string) :
  id <> EmptyString ->
  get_db_conn w = Some conn ->
  accepts conn 4 ->
  exists conn',
    whitelist_profile_store w (Some id)
      = (Response (Msg ("Whitelisted profile " ++ id)) 200, Some conn')
    /\ is_Some (whitelisted_profile conn' id)
    /\ (whitelisted_profile conn id = None ->
        whitelisted_profile conn' id
          = Some {| added_at := Some (server_now conn (3 + executed conn)) |})
    /\ (forall k, k <> id ->
        whitelisted_profile conn' k = whitelisted_profile conn k).
Proof.
  intros Hid Hconn Ha. destruct id as [|ch id]; [congruence|].
  unfold whitelist_profile_store. rewrite Hconn. unfold bind.
  rewrite (ensure_tables_accepted conn 1 Ha).
  pose proof (accepts_ensured conn 1 Ha) as Ha'.
  rewrite (upsert_whitelisted_profile_accepted (ensured conn) 0 _ _ Ha' eq_refl).
  eexists. split; [reflexivity|].
  unfold whitelisted_profile. cbn.
  destruct (whitelisted_profiles (server_db conn)) as [t|]; cbn.
  - split; [apply insert_profile_lookup|].
    split; [apply insert_profile_new|].
    intros k Hk. apply insert_profile_other. exact Hk.
  - split; [apply insert_profile_lookup|].
    split; [intros _; apply insert_profile_new; apply lookup_empty|].
    intros k Hk. rewrite insert_profile_other by exact Hk. apply lookup_empty.
Qed.

End ProfileStoreFacts.

Section EndpointClaims.

Variable urlparse : string -> option Urllib.ParseResult.

(** C5, amended. In [api_blacklist_track] and [api_blacklist_playlist],
    when the resolved kind is neither null nor empty and differs from the
    kind the endpoint expects, the pattern is searched in the resolved id:
    the endpoint goes on with the token found, and with the resolved id
    when there is none. *)
Theorem kind_mismatch_second_pass (w : world) (p : payload)
    (val kind id : string) :
  input_text p = inr val ->
  extract_id_from_input urlparse val = (Some kind, Some id) ->
  kind <> EmptyString ->
  let used := default id (SPOTIFY_ID_RE_search id) in
  (kind <> "track" ->
   api_blacklist_track urlparse w p = blacklist_track_store w (Some used))
  /\ (kind <> "playlist" ->
      api_blacklist_playlist urlparse w p
        = blacklist_playlist_store w (blacklisted_flag_of p) (Some used)).
Proof.
  intros Hval Hext Hkind used.
  assert (Ht : Py.truthy (Some kind) = true)
    by (destruct kind; [congruence | reflexivity]).
  split; intros Hne.
  - unfold api_blacklist_track, blacklist_track_id.
    rewrite Hval, Hext. unfold kind_mismatch_correction. rewrite Ht.
    rewrite bool_decide_eq_false_2 by congruence. cbn.
    subst used. destruct (SPOTIFY_ID_RE_search id); reflexivity.
  - unfold api_blacklist_playlist, blacklist_playlist_id.
    rewrite Hval, Hext. unfold kind_mismatch_correction. rewrite Ht.
    rewrite bool_decide_eq_false_2 by congruence. cbn.
    subst used. destruct (SPOTIFY_ID_RE_search id); reflexivity.
Qed.

(** C9. A [whitelist_profile] request whose input resolves to a playlist
    that the client looks up with owner [P1] writes [P1]: the answer is
    200 and names [P1], [whitelisted_profiles] holds a row for [P1], new
    with [added_at] the time of the insert when there was none, and no
    other key of the table changes, the playlist's id among them.  The
    store gives a connection that accepts the four statements. *)
Theorem whitelist_profile_writes_owner (w : world) (p : payload)
    (val pid P1 : string) (sp : Spotify) (pl : playlist_info) (conn : conn) :
  input_text p = inr val ->
  extract_id_from_input urlparse val = (Some "playlist", Some pid) ->
  _sp w = Some sp ->
  playlist sp pid = Some pl ->
  p_owner_id pl = Some P1 ->
  P1 <> EmptyString ->
  get_db_conn w = Some conn ->
  accepts conn 4 ->
  exists conn',
    api_whitelist_profile urlparse w p
      = (Response (Msg ("Whitelisted profile " ++ P1)) 200, Some conn')
    /\ is_Some (whitelisted_profile conn' P1)
    /\ (whitelisted_profile conn P1 = None ->
        whitelisted_profile conn' P1
          = Some {| added_at := Some (server_now conn (3 + executed conn)) |})
    /\ (forall k, k <> P1 ->
        whitelisted_profile conn' k = whitelisted_profile conn k).
Proof.
  intros Hval Hext Hsp Hpl Hown HP1 Hconn Ha.
  unfold api_whitelist_profile, whitelist_profile_id.
  rewrite Hval, Hext. cbn. unfold owner_redirect.
  rewrite Hsp, Hpl, Hown.
  assert (Ht : Py.truthy (Some P1) = true)
    by (destruct P1; [congruence | reflexivity]).
  rewrite Ht. apply whitelist_profile_store_written; assumption.
Qed.

(** C10, amended. A [whitelist_profile] request whose input resolves to a
    playlist with a non-empty id, or to no kind with an id of 22
    alphanumerics, writes that id when the client is absent or the owner
    lookup fails: the answer is 200 and names the resolved id, and
    [whitelisted_profiles] holds a row for it.  The store gives a
    connection that accepts the four statements. *)
Theorem whitelist_profile_writes_resolved_id (w : world) (p : payload)
    (val id : string) (kind : option string) (conn : conn) :
  input_text p = inr val ->
  extract_id_from_input urlparse val = (kind, Some id) ->
  (kind = Some "playlist" /\ id <> EmptyString) \/ (kind = None /\ is_id22 id) ->
  owner_lookup_fails w id ->
  get_db_conn w = Some conn ->
  accepts conn 4 ->
  exists conn',
    api_whitelist_profile urlparse w p
      = (Response (Msg ("Whitelisted profile " ++ id)) 200, Some conn')
    /\ is_Some (whitelisted_profile conn' id)
    /\ (whitelisted_profile conn id = None ->
        whitelisted_profile conn' id
          = Some {| added_at := Some (server_now conn (3 + executed conn)) |})
    /\ (forall k, k <> id ->
        whitelisted_profile conn' k = whitelisted_profile conn k).
Proof.
  intros Hval Hext Hkind Hfail Hconn Ha.
  assert (Hid : id <> EmptyString).
  { destruct Hkind as [[_ H]|[_ H]]; [exact H | exact (is_id22_not_empty _ H)]. }
  assert (Hwant : owner_lookup_wanted kind (Some id) = inr true).
  { destruct Hkind as [[-> _]|[-> H]]; [reflexivity|].
    unfold owner_lookup_wanted. cbn.
    rewrite (SPOTIFY_ID_RE_search_id22 _ H). reflexivity. }
  assert (Hred : owner_redirect w (Some id) (Some id) = Some id).
  { unfold owner_redirect. unfold owner_lookup_fails in Hfail.
    destruct (_sp w) as [sp|]; [|reflexivity].
    destruct (playlist sp id) as [pl|]; [|reflexivity].
    rewrite Hfail. reflexivity. }
  unfold api_whitelist_profile, whitelist_profile_id.
  rewrite Hval, Hext, Hwant, Hred.
  apply whitelist_profile_store_written; assumption.
Qed.

End EndpointClaims.

(** C5, as the claim has it, fails on a kind that is the empty string: it
    is not null and it is not the expected kind, and the resolved id
    holds a token, yet the write uses the resolved id. *)
Lemma empty_kind_skips_second_pass :
  let w := {| _sp := None; get_db_conn := Some (sample_conn no_tables) |} in
  let p := request "spotify::xx4iV5W9uYEdYUVa79Axb7Rhyy" in
  extract_id_from_input Urllib.urlparse "spotify::xx4iV5W9uYEdYUVa79Axb7Rhyy"
    = (Some "", Some "xx4iV5W9uYEdYUVa79Axb7Rhyy")
  /\ SPOTIFY_ID_RE_search "xx4iV5W9uYEdYUVa79Axb7Rhyy"
     = Some "xx4iV5W9uYEdYUVa79Axb7"
  /\ fst (api_blacklist_track Urllib.urlparse w p)
     = Response
         (Msg "Blacklisted track xx4iV5W9uYEdYUVa79Axb7Rhyy (fixed=true)") 200
  /\ exists c',
       snd (api_blacklist_track Urllib.urlparse w p) = Some c'
       /\ is_Some (song c' "xx4iV5W9uYEdYUVa79Axb7Rhyy")
       /\ song c' "xx4iV5W9uYEdYUVa79Axb7" = None.
Proof.
  cbv zeta. split; [vm_compute; reflexivity|].
  split; [vm_compute; reflexivity|].
  split; [vm_compute; reflexivity|].
  eexists. split; [vm_compute; reflexivity|].
  split; [vm_compute; eexists; reflexivity | vm_compute; reflexivity].
Qed.

Lemma kind_mismatch_second_pass_witness :
  let w := {| _sp := None; get_db_conn := Some (sample_conn no_tables) |} in
  let p := request "spotify:album:xx4iV5W9uYEdYUVa79Axb7Rhyy" in
  api_blacklist_track Urllib.urlparse w p
    = blacklist_track_store w (Some "xx4iV5W9uYEdYUVa79Axb7")
  /\ api_blacklist_playlist Urllib.urlparse w p
    = blacklist_playlist_store w true (Some "xx4iV5W9uYEdYUVa79Axb7").
Proof.
  intros w p.
  destruct (kind_mismatch_second_pass Urllib.urlparse w p
              "spotify:album:xx4iV5W9uYEdYUVa79Axb7Rhyy" "album"
              "xx4iV5W9uYEdYUVa79Axb7Rhyy") as [Ht Hp].
  - reflexivity.
  - reflexivity.
  - discriminate.
  - split; [apply Ht; discriminate | apply Hp; discriminate].
Defined.

Lemma whitelist_profile_writes_owner_witness :
  let conn := sample_conn no_tables in
  let w := {| _sp := Some (sample_client "P1"); get_db_conn := Some conn |} in
  let p := request "spotify:playlist:37i9dQZF1DXcBWIGoYBM5M" in
  exists conn',
    api_whitelist_profile Urllib.urlparse w p
      = (Response (Msg "Whitelisted profile P1") 200, Some conn')
    /\ is_Some (whitelisted_profile conn' "P1")
    /\ (whitelisted_profile conn "P1" = None ->
        whitelisted_profile conn' "P1" = Some {| added_at := Some 1003%Z |})
    /\ (forall k, k <> "P1" ->
        whitelisted_profile conn' k = whitelisted_profile conn k).
Proof.
  intros conn w p.
  apply (whitelist_profile_writes_owner Urllib.urlparse w p
           "spotify:playlist:37i9dQZF1DXcBWIGoYBM5M" "37i9dQZF1DXcBWIGoYBM5M"
           "P1" (sample_client "P1")
           {| p_name := Some "Mix"%string; p_owner_id := Some "P1"%string |}
           conn).
  - reflexivity.
  - reflexivity.
  - reflexivity.
  - reflexivity.
  - reflexivity.
  - discriminate.
  - reflexivity.
  - intros i Hi. reflexivity.
Defined.

(** C10, as the claim has it, fails on a playlist URI without an id: the
    input resolves to the kind [playlist], the client is absent, and the
    request is answered 400 and writes nothing. *)
Lemma playlist_without_id_is_400 :
  let conn := sample_conn no_tables in
  let w := {| _sp := None; get_db_conn := Some conn |} in
  extract_id_from_input Urllib.urlparse "spotify:playlist:"
    = (Some "playlist", Some "")
  /\ api_whitelist_profile Urllib.urlparse w (request "spotify:playlist:")
     = (Response (Error "Could not parse profile or playlist owner id") 400,
        Some conn)
  /\ status_code
       (fst (api_whitelist_profile Urllib.urlparse w
               (request "spotify:playlist:"))) <> 200%Z.
Proof.
  cbv zeta. split; [reflexivity|]. split; [reflexivity | discriminate].
Qed.

Lemma whitelist_profile_writes_resolved_id_witness :
  let conn := sample_conn no_tables in
  let w := {| _sp := None; get_db_conn := Some conn |} in
  let p := request "spotify:playlist:37i9dQZF1DXcBWIGoYBM5M" in
  exists conn',
    api_whitelist_profile Urllib.urlparse w p
      = (Response (Msg "Whitelisted profile 37i9dQZF1DXcBWIGoYBM5M") 200,
         Some conn')
    /\ is_Some (whitelisted_profile conn' "37i9dQZF1DXcBWIGoYBM5M")
    /\ (whitelisted_profile conn "37i9dQZF1DXcBWIGoYBM5M" = None ->
        whitelisted_profile conn' "37i9dQZF1DXcBWIGoYBM5M"
          = Some {| added_at := Some 1003%Z |})
    /\ (forall k, k <> "37i9dQZF1DXcBWIGoYBM5M" ->
        whitelisted_profile conn' k = whitelisted_profile conn k).
Proof.
  intros conn w p.
  apply (whitelist_profile_writes_resolved_id Urllib.urlparse w p
           "spotify:playlist:37i9dQZF1DXcBWIGoYBM5M" "37i9dQZF1DXcBWIGoYBM5M"
           (Some "playlist"%string) conn).
  - reflexivity.
  - reflexivity.
  - left. split; [reflexivity | discriminate].
  - exact I.
  - reflexivity.
  - intros i Hi. reflexivity.
Defined.

(** * Further properties of the resolver *)

Section StripFacts.

Variable p : ascii -> bool.

Lemma rstrip_by_idem (s : string) :
  Py.rstrip_by p (Py.rstrip_by p s) = Py.rstrip_by p s.
Proof.
  induction s as [|c s IH]; [reflexivity|].
  destruct (decide (Py.rstrip_by p s = EmptyString)) as [Hr|Hr].
  - cbn. rewrite Hr. destruct (p c) eqn:Hc; [reflexivity|].
    cbn. rewrite Hc. reflexivity.
  - rewrite (rstrip_by_cons p c s) by (left; exact Hr).
    rewrite rstrip_by_cons by (left; rewrite IH; exact Hr).
    rewrite IH. reflexivity.
Qed.

(** What [lstrip] leaves is empty or starts with a character it keeps. *)
Lemma lstrip_by_head (s : string) :
  Py.lstrip_by p s = EmptyString
  \/ exists c t, Py.lstrip_by p s = String c t /\ p c = false.
Proof.
  induction s as [|c s IH]; [left; reflexivity|].
  cbn. destruct (p c) eqn:Hc; [exact IH|].
  right. exists c, s. split; [reflexivity | exact Hc].
Qed.

Lemma strip_by_idem (s : string) :
  Py.strip_by p (Py.strip_by p s) = Py.strip_by p s.
Proof.
  unfold Py.strip_by.
  destruct (lstrip_by_head s) as [H|(c & t & H & Hc)]; rewrite H.
  - reflexivity.
  - rewrite (rstrip_by_cons p c t) by (right; exact Hc).
    cbn [Py.lstrip_by]. rewrite Hc.
    rewrite <- (rstrip_by_cons p c t) by (right; exact Hc).
    apply rstrip_by_idem.
Qed.

(** A text none of whose characters is in the class is left as it is. *)
Lemma lstrip_by_keeps_head (c : ascii) (s : string) :
  p c = false -> Py.lstrip_by p (String c s) = String c s.
Proof. intros H. cbn. rewrite H. reflexivity. Qed.

End StripFacts.

Section ResolverShape.

Variable urlparse : string -> option Urllib.ParseResult.

Lemma uri_form_has_id (v : string) r :
  uri_form v = Some r -> is_Some (fst r) /\ is_Some (snd r).
Proof.
  unfold uri_form. destruct (Py.startswith "spotify:" v); [|discriminate].
  destruct (Py.split ":" v) as [|a [|b [|i l]]]; try discriminate.
  intros H. injection H as <-. split; eexists; reflexivity.
Qed.

Lemma url_form_has_id (v : string) r :
  url_form urlparse v = Some r -> is_Some (snd r).
Proof.
  unfold url_form. destruct (urlparse v) as [q|]; [|discriminate].
  destruct (negb (Py.str_falsy (Urllib.netloc q))
            && Py.contains "spotify" (Urllib.netloc q)); [|discriminate].
  destruct (Py.split "/" (Py.strip_char "/" (Urllib.path q)))
    as [|k [|j l]]; try discriminate.
  all: intros H; injection H as <-; eexists; reflexivity.
Qed.

Lemma extract_id_from_input_has_id (value : string) :
  value <> EmptyString ->
  is_Some (snd (extract_id_from_input urlparse value)).
Proof.
  intros Hne. destruct value as [|c value]; [congruence|].
  unfold extract_id_from_input.
  change (Py.str_falsy (String c value)) with false. cbv iota zeta.
  generalize (Py.strip (String c value)). intros v.
  destruct (uri_form v) as [r|] eqn:Huri;
    [exact (proj2 (uri_form_has_id v r Huri))|].
  destruct (url_form urlparse v) as [r|] eqn:Hurl;
    [exact (url_form_has_id v r Hurl)|].
  destruct (SPOTIFY_ID_RE_search v); eexists; reflexivity.
Qed.

(** X1. The resolver gives no id exactly on the empty text, and a kind
    never comes without an id. *)
Theorem extract_id_from_input_id_none_iff_empty (value : string) :
  (snd (extract_id_from_input urlparse value) = None <-> value = EmptyString)
  /\ (is_Some (fst (extract_id_from_input urlparse value)) ->
      is_Some (snd (extract_id_from_input urlparse value))).
Proof.
  split.
  - split.
    + intros Hnone. destruct (decide (value = EmptyString)) as [|Hne];
        [assumption|].
      destruct (extract_id_from_input_has_id value Hne) as [x Hx]. congruence.
    + intros ->. reflexivity.
  - intros [k Hk]. destruct (decide (value = EmptyString)) as [->|Hne].
    + cbn in Hk. discriminate.
    + exact (extract_id_from_input_has_id value Hne).
Qed.

Lemma lstrip_all_space (ws t : string) :
  Py.all_space ws = true ->
  Py.lstrip_by Py.isspace (String.append ws t) = Py.lstrip_by Py.isspace t.
Proof.
  induction ws as [|c ws IH]; intros H; [reflexivity|].
  cbn in H. apply andb_prop in H. destruct H as [Hc Hws].
  change (String.append (String c ws) t) with (String c (String.append ws t)).
  cbn [Py.lstrip_by]. rewrite Hc. exact (IH Hws).
Qed.

Lemma rstrip_all_space (ws : string) :
  Py.all_space ws = true -> Py.rstrip_by Py.isspace ws = EmptyString.
Proof.
  induction ws as [|c ws IH]; intros H; [reflexivity|].
  cbn in H. apply andb_prop in H. destruct H as [Hc Hws].
  cbn. rewrite (IH Hws), Hc. reflexivity.
Qed.

Lemma rstrip_app_space (t ws : string) :
  Py.all_space ws = true ->
  Py.rstrip_by Py.isspace (String.append t ws) = Py.rstrip_by Py.isspace t.
Proof.
  intros H. induction t as [|c t IH].
  - exact (rstrip_all_space ws H).
  - change (String.append (String c t) ws) with (String c (String.append t ws)).
    cbn [Py.rstrip_by]. rewrite IH. reflexivity.
Qed.

(** Whitespace around a text does not reach what [strip] returns. *)
Lemma strip_padded (ws1 s ws2 : string) :
  Py.all_space ws1 = true ->
  Py.all_space ws2 = true ->
  Py.strip (String.append ws1 (String.append s ws2)) = Py.strip s.
Proof.
  intros H1 H2. unfold Py.strip, Py.strip_by.
  rewrite (lstrip_all_space ws1 _ H1).
  induction s as [|c s IH].
  - change (String.append EmptyString ws2) with ws2.
    rewrite <- (lstrip_all_space ws2 EmptyString H2).
    replace (String.append ws2 EmptyString) with ws2; [|].
    + assert (Hl : Py.lstrip_by Py.isspace ws2 = EmptyString).
      { clear -H2. induction ws2 as [|c ws IH]; [reflexivity|].
        cbn in H2. apply andb_prop in H2. destruct H2 as [Hc Hws].
        cbn. rewrite Hc. exact (IH Hws). }
      rewrite Hl. reflexivity.
    + clear. induction ws2 as [|c ws IH]; [reflexivity|].
      change (String.append (String c ws) EmptyString)
        with (String c (String.append ws EmptyString)).
      rewrite <- IH. reflexivity.
  - change (String.append (String c s) ws2)
      with (String c (String.append s ws2)).
    cbn [Py.lstrip_by]. destruct (Py.isspace c); [exact IH|].
    change (String c (String.append s ws2))
      with (String.append (String c s) ws2).
    apply rstrip_app_space. exact H2.
Qed.

Lemma input_text_string (s : string) (b : option json) :
  input_text {| input := Some (JStr s); blacklisted_key := b |}
  = inr (Py.strip s).
Proof. unfold input_text. cbn. destruct s; reflexivity. Qed.

(** X4. Whitespace around the input does not matter: a text with
    whitespace before and after it gets, in each endpoint, the answer the
    text itself gets, and leaves the same state. *)
Theorem endpoints_ignore_surrounding_whitespace (w : world)
    (ws1 s ws2 : string) (b : option json) :
  Py.all_space ws1 = true ->
  Py.all_space ws2 = true ->
  let p := {| input := Some (JStr (String.append ws1 (String.append s ws2)));
              blacklisted_key := b |} in
  let p' := {| input := Some (JStr s); blacklisted_key := b |} in
  api_blacklist_track urlparse w p = api_blacklist_track urlparse w p'
  /\ api_blacklist_playlist urlparse w p = api_blacklist_playlist urlparse w p'
  /\ api_whitelist_profile urlparse w p = api_whitelist_profile urlparse w p'.
Proof.
  intros H1 H2 p p'.
  assert (Hin : input_text p = input_text p').
  { unfold p, p'. rewrite !input_text_string.
    rewrite (strip_padded ws1 s ws2 H1 H2). reflexivity. }
  unfold api_blacklist_track, api_blacklist_playlist, api_whitelist_profile.
  rewrite Hin. repeat split.
Qed.

End ResolverShape.

Lemma endpoints_ignore_surrounding_whitespace_witness :
  let w := {| _sp := None; get_db_conn := Some (sample_conn sample_db) |} in
  let padded := request "   spotify:track:4iV5W9uYEdYUVa79Axb7Rh  " in
  let bare := request "spotify:track:4iV5W9uYEdYUVa79Axb7Rh" in
  api_blacklist_track Urllib.urlparse w padded
    = api_blacklist_track Urllib.urlparse w bare
  /\ api_blacklist_playlist Urllib.urlparse w padded
     = api_blacklist_playlist Urllib.urlparse w bare
  /\ api_whitelist_profile Urllib.urlparse w padded
     = api_whitelist_profile Urllib.urlparse w bare.
Proof.
  intros w padded bare.
  exact (endpoints_ignore_surrounding_whitespace Urllib.urlparse w
           "   " "spotify:track:4iV5W9uYEdYUVa79Axb7Rh" "  " None
           eq_refl eq_refl).
Defined.

Section SegmentFacts.

Variable sep : ascii.

Lemma append_cons (c : ascii) (a b : string) :
  String.append (String c a) b = String c (String.append a b).
Proof. reflexivity. Qed.

Lemma append_empty_l (b : string) : String.append EmptyString b = b.
Proof. reflexivity. Qed.

Lemma append_not_empty (a x : string) :
  x <> EmptyString -> String.append a x <> EmptyString.
Proof. destruct a; [rewrite append_empty_l; auto | rewrite append_cons; discriminate]. Qed.

(** [sep in String c s] *)
Lemma contains_char_cons (c : ascii) (s : string) :
  Py.contains (String sep EmptyString) (String c s)
  = Ascii.eqb sep c || Py.contains (String sep EmptyString) s.
Proof.
  change (Py.contains (String sep EmptyString) (String c s))
    with ((Ascii.eqb sep c && true)
          || Py.contains (String sep EmptyString) s).
  rewrite andb_true_r. reflexivity.
Qed.

Lemma contains_char_cons_false (c : ascii) (s : string) :
  Py.contains (String sep EmptyString) (String c s) = false ->
  Ascii.eqb c sep = false /\ Py.contains (String sep EmptyString) s = false.
Proof.
  rewrite contains_char_cons. intros H. apply orb_false_elim in H.
  destruct H as [H1 H2]. rewrite Ascii.eqb_sym. auto.
Qed.

(** A text without the separator is its own single segment. *)
Lemma split_no_sep (a : string) :
  Py.contains (String sep EmptyString) a = false -> Py.split sep a = [a].
Proof.
  induction a as [|c a IH]; intros H; [reflexivity|].
  apply contains_char_cons_false in H. destruct H as [Hc Ha].
  rewrite (split_cons_other sep c a Hc), (IH Ha). reflexivity.
Qed.

(** The first segment of [a ++ sep ++ b] is [a] when [a] has no separator. *)
Lemma split_app_sep (a b : string) :
  Py.contains (String sep EmptyString) a = false ->
  Py.split sep (String.append a (String sep b)) = a :: Py.split sep b.
Proof.
  induction a as [|c a IH]; intros H.
  - rewrite append_empty_l. cbn. rewrite Ascii.eqb_refl. reflexivity.
  - apply contains_char_cons_false in H. destruct H as [Hc Ha].
    rewrite append_cons, (split_cons_other sep c _ Hc), (IH Ha). reflexivity.
Qed.

Lemma rstrip_char_no_sep (s : string) :
  Py.contains (String sep EmptyString) s = false ->
  Py.rstrip_by (Ascii.eqb sep) s = s.
Proof.
  induction s as [|c s IH]; intros H; [reflexivity|].
  apply contains_char_cons_false in H. destruct H as [Hc Hs].
  rewrite rstrip_by_cons by (right; rewrite Ascii.eqb_sym; exact Hc).
  rewrite (IH Hs). reflexivity.
Qed.

Lemma rstrip_by_app (p : ascii -> bool) (a x : string) :
  Py.rstrip_by p x = x -> x <> EmptyString ->
  Py.rstrip_by p (String.append a x) = String.append a x.
Proof.
  intros Hx Hne. induction a as [|c a IH].
  - rewrite append_empty_l. exact Hx.
  - rewrite append_cons.
    rewrite rstrip_by_cons
      by (left; rewrite IH; apply append_not_empty; exact Hne).
    rewrite IH. reflexivity.
Qed.

End SegmentFacts.

Section ResolverUrl.

Variable urlparse : string -> option Urllib.ParseResult.

(** X2. The URL form.  When the stripped text is not a [spotify:] URI and
    [urlparse] finds in it a host containing [spotify] and the path
    [/kind/id], with [kind] and [id] non-empty and free of slashes and
    [id] free of question marks, the resolver returns [kind] and [id]. *)
Theorem extract_id_from_input_url (value host kind id : string) :
  value <> EmptyString ->
  Py.startswith "spotify:" (Py.strip value) = false ->
  urlparse (Py.strip value)
    = Some {| Urllib.netloc := host;
              Urllib.path :=
                String.append "/"
                  (String.append kind (String "/" id)) |} ->
  Py.contains "spotify" host = true ->
  kind <> EmptyString ->
  id <> EmptyString ->
  Py.contains "/" kind = false ->
  Py.contains "/" id = false ->
  Py.contains "?" id = false ->
  extract_id_from_input urlparse value = (Some kind, Some id).
Proof.
  intros Hval Huri Hparse Hhost Hkind Hid Hk Hi Hq.
  destruct value as [|c0 value]; [congruence|].
  unfold extract_id_from_input.
  change (Py.str_falsy (String c0 value)) with false. cbv iota zeta.
  unfold uri_form. rewrite Huri. unfold url_form. rewrite Hparse.
  cbn [Urllib.netloc Urllib.path]. rewrite Hhost.
  assert (Hh : Py.str_falsy host = false)
    by (destruct host; [discriminate Hhost | reflexivity]).
  rewrite Hh. cbn [negb andb].
  assert (Hstrip : Py.strip_char "/"
                     (String.append "/" (String.append kind (String "/" id)))
                   = String.append kind (String "/" id)).
  { unfold Py.strip_char, Py.strip_by.
    destruct kind as [|k kind']; [congruence|].
    pose proof (contains_char_cons_false "/" k kind' Hk) as [Hk0 _].
    change (String.append "/" (String.append (String k kind') (String "/" id)))
      with (String "/" (String k (String.append kind' (String "/" id)))).
    cbn [Py.lstrip_by]. rewrite Ascii.eqb_refl, (Ascii.eqb_sym "/" k), Hk0.
    change (String k (String.append kind' (String "/" id)))
      with (String.append (String k kind') (String "/" id)).
    apply rstrip_by_app; [|discriminate].
    rewrite rstrip_by_cons
      by (left; rewrite (rstrip_char_no_sep "/" id Hi); exact Hid).
    rewrite (rstrip_char_no_sep "/" id Hi). reflexivity. }
  rewrite Hstrip, (split_app_sep "/" kind id Hk), (split_no_sep "/" id Hi).
  rewrite (split_no_sep "?" id Hq). reflexivity.
Qed.

End ResolverUrl.

Lemma extract_id_from_input_url_witness :
  extract_id_from_input Urllib.urlparse
    "https://open.spotify.com/playlist/37i9dQZF1DXcBWIGoYBM5M?si=abc"
  = (Some "playlist", Some "37i9dQZF1DXcBWIGoYBM5M").
Proof.
  apply (extract_id_from_input_url Urllib.urlparse
           "https://open.spotify.com/playlist/37i9dQZF1DXcBWIGoYBM5M?si=abc"
           "open.spotify.com" "playlist" "37i9dQZF1DXcBWIGoYBM5M").
  - discriminate.
  - reflexivity.
  - reflexivity.
  - reflexivity.
  - discriminate.
  - discriminate.
  - reflexivity.
  - reflexivity.
  - reflexivity.
Defined.

Section PatternSearch.

Lemma take_alnum_app (n : nat) :
  forall t b, take_alnum n t = Some t ->
              take_alnum n (String.append t b) = Some t.
Proof.
  induction n as [|n IH]; intros t b Ht.
  - cbn in Ht. injection Ht as <-. reflexivity.
  - destruct t as [|c t]; cbn in Ht; [discriminate|].
    destruct (is_alnum c) eqn:Hc; [|discriminate].
    destruct (take_alnum n t) as [t'|] eqn:Ht'; [|discriminate].
    injection Ht as ->. rewrite append_cons. cbn. rewrite Hc.
    rewrite (IH t b Ht'). reflexivity.
Qed.

Lemma take_alnum_prefix (n : nat) :
  forall s t, take_alnum n s = Some t -> exists b, s = String.append t b.
Proof.
  induction n as [|n IH]; intros s t Hs.
  - cbn in Hs. injection Hs as <-. exists s. reflexivity.
  - destruct s as [|c s]; cbn in Hs; [discriminate|].
    destruct (is_alnum c); [|discriminate].
    destruct (take_alnum n s) as [t'|] eqn:Ht'; [|discriminate].
    injection Hs as <-. destruct (IH s t' Ht') as [b ->].
    exists b. reflexivity.
Qed.

Lemma SPOTIFY_ID_RE_search_cons (c : ascii) (s : string) :
  SPOTIFY_ID_RE_search (String c s)
  = match take_alnum 22 (String c s) with
    | Some t => Some t
    | None => SPOTIFY_ID_RE_search s
    end.
Proof. reflexivity. Qed.

(** X3. The pattern search is the search of the regular expression: it
    finds a match exactly when the text holds 22 alphanumerics in a row,
    and what it returns is such a run, the leftmost one of the text. *)
Theorem SPOTIFY_ID_RE_search_leftmost (s : string) :
  match SPOTIFY_ID_RE_search s with
  | Some t =>
      is_id22 t
      /\ exists a b,
           s = String.append a (String.append t b)
           /\ forall a' t' b',
                s = String.append a' (String.append t' b') ->
                is_id22 t' ->
                String.length a <= String.length a'
  | None =>
      forall a t b, s = String.append a (String.append t b) -> ~ is_id22 t
  end.
Proof.
  induction s as [|c s IH].
  - cbn. intros a t b Hs Ht.
    destruct a; [|discriminate Hs]. rewrite append_empty_l in Hs.
    destruct t; [discriminate Ht | discriminate Hs].
  - rewrite SPOTIFY_ID_RE_search_cons.
    destruct (take_alnum 22 (String c s)) as [t|] eqn:Ht.
    + split; [exact (take_alnum_idem 22 _ _ Ht)|].
      destruct (take_alnum_prefix 22 _ _ Ht) as [b Hb].
      exists EmptyString, b. split; [exact Hb|].
      intros a' t' b' _ _. cbn. lia.
    + assert (Hhead : forall t' b',
                 String c s = String.append t' b' -> ~ is_id22 t').
      { intros t' b' Hs Ht'. rewrite Hs in Ht.
        rewrite (take_alnum_app 22 t' b' Ht') in Ht. discriminate. }
      destruct (SPOTIFY_ID_RE_search s) as [t|].
      * destruct IH as (Hid & a & b & Hs & Hmin). split; [exact Hid|].
        exists (String c a), b. split; [rewrite append_cons, <- Hs; reflexivity|].
        intros a' t' b' Hs' Ht'. destruct a' as [|c' a'].
        -- rewrite append_empty_l in Hs'. destruct (Hhead t' b' Hs' Ht').
        -- rewrite append_cons in Hs'. injection Hs' as -> Hs'.
           cbn. apply le_n_S. exact (Hmin a' t' b' Hs' Ht').
      * intros a t b Hs Hid. destruct a as [|c' a].
        -- rewrite append_empty_l in Hs. exact (Hhead t b Hs Hid).
        -- rewrite append_cons in Hs. injection Hs as -> Hs.
           exact (IH a t b Hs Hid).
Qed.

Lemma is_id22_strip (id : string) : is_id22 id -> Py.strip id = id.
Proof.
  intros H. unfold Py.strip, Py.strip_by.
  destruct id as [|c id]; [reflexivity|].
  assert (Hc : is_alnum c = true).
  { unfold is_id22 in H. cbn in H. destruct (is_alnum c); [reflexivity|discriminate]. }
  rewrite (lstrip_by_keeps_head _ c id (is_alnum_not_space c Hc)).
  exact (take_alnum_rstrip 22 _ H).
Qed.

Lemma startswith_prefix (pre s : string) :
  Py.startswith pre s = true -> exists r, s = String.append pre r.
Proof.
  revert s. induction pre as [|a pre IH]; intros s H.
  - exists s. reflexivity.
  - destruct s as [|b s]; [discriminate|]. cbn in H.
    apply andb_prop in H. destruct H as [Hab Hs].
    apply Ascii.eqb_eq in Hab. subst b.
    destruct (IH s Hs) as [r ->]. exists r. reflexivity.
Qed.

Lemma is_id22_not_uri (id : string) :
  is_id22 id -> Py.startswith "spotify:" id = false.
Proof.
  intros H. destruct (Py.startswith "spotify:" id) eqn:Hs; [|reflexivity].
  destruct (startswith_prefix _ _ Hs) as [r ->].
  unfold is_id22 in H. discriminate H.
Qed.

Variable urlparse : string -> option Urllib.ParseResult.

(** X5. The bare id.  A text that is 22 alphanumerics, in which
    [urlparse] finds no host containing [spotify], resolves to that text
    with no kind. *)
Theorem extract_id_from_input_bare_id (value : string) :
  is_id22 value ->
  (forall p, urlparse value = Some p ->
             Py.contains "spotify" (Urllib.netloc p) = false) ->
  extract_id_from_input urlparse value = (None, Some value).
Proof.
  intros Hid Hurl. pose proof (is_id22_not_empty _ Hid) as Hne.
  destruct value as [|c value]; [congruence|].
  unfold extract_id_from_input.
  change (Py.str_falsy (String c value)) with false. cbv iota zeta.
  rewrite (is_id22_strip _ Hid).
  unfold uri_form. rewrite (is_id22_not_uri _ Hid).
  unfold url_form. destruct (urlparse (String c value)) as [p|] eqn:Hp.
  - rewrite (Hurl p eq_refl), andb_false_r.
    rewrite (SPOTIFY_ID_RE_search_id22 _ Hid). reflexivity.
  - rewrite (SPOTIFY_ID_RE_search_id22 _ Hid). reflexivity.
Qed.

End PatternSearch.

Lemma extract_id_from_input_bare_id_witness :
  extract_id_from_input Urllib.urlparse "4iV5W9uYEdYUVa79Axb7Rh"
  = (None, Some "4iV5W9uYEdYUVa79Axb7Rh").
Proof.
  apply (extract_id_from_input_bare_id Urllib.urlparse "4iV5W9uYEdYUVa79Axb7Rh").
  - reflexivity.
  - intros p Hp. vm_compute in Hp. injection Hp as <-. reflexivity.
Defined.

(** * Further properties of the store *)

Section StoreEffects.

Implicit Types (c : conn) (k : upsert_call) (l : list upsert_call).



(** One upsert on a connection that accepts it and has the tables: the
    connection it leaves, and every row read on it. *)
Lemma run_call_rows c k :
  accepts c 1 ->
  has_tables (server_db c) ->
  exists c',
    run_call k c = (inr tt, c')
    /\ c' = sent c (server_db c')
    /\ has_tables (server_db c')
    /\ forall id,
         song c' id =
           match k with
           | CallSong id' sname aid aname fx =>
               if bool_decide (id' = id)
               then Some (merge_song (server_now c (executed c))
                            sname aid aname fx (song c id))
               else song c id
           | _ => song c id
           end
         /\ user_playlist c' id =
           match k with
           | CallPlaylist id' pname bl =>
               if bool_decide (id' = id)
               then Some (merge_playlist (server_now c (executed c))
                            pname bl (user_playlist c id))
               else user_playlist c id
           | _ => user_playlist c id
           end
         /\ whitelisted_profile c' id =
           match k with
           | CallProfile id' =>
               if bool_decide (id' = id)
               then Some (default
                            {| added_at := Some (server_now c (executed c)) |}
                            (whitelisted_profile c id))
               else whitelisted_profile c id
           | _ => whitelisted_profile c id
           end.
Proof.
  intros Ha ([ts Hs] & [tp Hp] & [tw Hw]).
  destruct k as [sid sname aid aname fx | pid pname bl | wid]; cbn [run_call].
  - rewrite (upsert_blacklisted_song_accepted c 0 ts _ _ _ _ _ Ha Hs).
    eexists. split; [reflexivity|]. split; [reflexivity|].
    unfold has_tables, song, user_playlist, whitelisted_profile. cbn.
    rewrite Hs, Hp, Hw. split; [eauto|]. intros id.
    split; [|split; reflexivity].
    case_bool_decide as Hid.
    + subst id. apply lookup_insert_eq.
    + apply lookup_insert_ne. exact Hid.
  - rewrite (upsert_user_playlist_blacklist_accepted c 0 tp _ _ _ Ha Hp).
    eexists. split; [reflexivity|]. split; [reflexivity|].
    unfold has_tables, song, user_playlist, whitelisted_profile. cbn.
    rewrite Hs, Hp, Hw. split; [eauto|]. intros id.
    split; [reflexivity|]. split; [|reflexivity].
    case_bool_decide as Hid.
    + subst id. apply lookup_insert_eq.
    + apply lookup_insert_ne. exact Hid.
  - rewrite (upsert_whitelisted_profile_accepted c 0 tw _ Ha Hw).
    eexists. split; [reflexivity|]. split; [reflexivity|].
    unfold has_tables, song, user_playlist, whitelisted_profile. cbn.
    rewrite Hs, Hp, Hw. split; [eauto|]. intros id.
    split; [reflexivity|]. split; [reflexivity|].
    unfold insert_profile. case_bool_decide as Hid.
    + subst id. destruct (tw !! wid) eqn:Hwid.
      * rewrite Hwid. reflexivity.
      * rewrite lookup_insert_eq. reflexivity.
    + destruct (tw !! wid); [reflexivity|].
      apply lookup_insert_ne. exact Hid.
Qed.

(** X6. What one upsert does, on a connection that accepts it and has the
    tables.  It returns.  For a song, the row of the key takes each name
    field that the call passes and keeps the stored one where the call
    passes null, takes the [fixed] of the call, and keeps [created_at],
    which is the time of the statement for a new row.  For a playlist, the
    row takes the name unless it is null, the flag, and the time of the
    statement as [updated_at].  For a profile, a row that is there stays
    as it is and a new one gets the time of the statement.  Every other
    key of that table and every key of the two other tables reads as
    before. *)
Theorem run_call_effect c k :
  accepts c 1 ->
  has_tables (server_db c) ->
  exists c',
    run_call k c = (inr tt, c')
    /\ match k with
       | CallSong id sname aid aname fx =>
           (exists r',
               song c' id = Some r'
               /\ (forall x, sname = Some x -> song_name r' = Some x)
               /\ (sname = None -> song_name r' = song c id ≫= song_name)
               /\ (forall x, aid = Some x -> artist_id r' = Some x)
               /\ (aid = None -> artist_id r' = song c id ≫= artist_id)
               /\ (forall x, aname = Some x -> artist_name r' = Some x)
               /\ (aname = None ->
                   artist_name r' = song c id ≫= artist_name)
               /\ fixed r' = Some fx
               /\ (forall r, song c id = Some r ->
                   created_at r' = created_at r)
               /\ (song c id = None ->
                   created_at r' = Some (server_now c (executed c))))
           /\ (forall j, j <> id -> song c' j = song c j)
           /\ (forall j, user_playlist c' j = user_playlist c j
                         /\ whitelisted_profile c' j = whitelisted_profile c j)
       | CallPlaylist id pname bl =>
           (exists r',
               user_playlist c' id = Some r'
               /\ (forall x, pname = Some x -> playlist_name r' = Some x)
               /\ (pname = None ->
                   playlist_name r' = user_playlist c id ≫= playlist_name)
               /\ blacklisted r' = Some bl
               /\ updated_at r' = Some (server_now c (executed c)))
           /\ (forall j, j <> id -> user_playlist c' j = user_playlist c j)
           /\ (forall j, song c' j = song c j
                         /\ whitelisted_profile c' j = whitelisted_profile c j)
       | CallProfile id =>
           (forall r, whitelisted_profile c id = Some r ->
                      whitelisted_profile c' id = Some r)
           /\ (whitelisted_profile c id = None ->
               whitelisted_profile c' id
               = Some {| added_at := Some (server_now c (executed c)) |})
           /\ (forall j, j <> id ->
                         whitelisted_profile c' j = whitelisted_profile c j)
           /\ (forall j, song c' j = song c j
                         /\ user_playlist c' j = user_playlist c j)
       end.
Proof.
  intros Ha Ht.
  destruct (run_call_rows c k Ha Ht) as (c' & Hrun & _ & _ & Hrows).
  exists c'. split; [exact Hrun|].
  destruct k as [id sname aid aname fx | id pname bl | id].
  - split; [|split].
    + destruct (Hrows id) as (Hs & _ & _).
      rewrite bool_decide_eq_true_2 in Hs by reflexivity.
      eexists. split; [exact Hs|].
      destruct (song c id) as [r|]; cbn.
      * repeat split; try (intros x ->; reflexivity);
          try (intros ->; reflexivity); try discriminate.
        intros r0 H. injection H as <-. reflexivity.
      * repeat split; try (intros x ->; reflexivity);
          try (intros ->; reflexivity); try discriminate.
    + intros j Hj. destruct (Hrows j) as (Hs & _ & _).
      rewrite bool_decide_eq_false_2 in Hs by congruence. exact Hs.
    + intros j. destruct (Hrows j) as (_ & Hp & Hw). auto.
  - split; [|split].
    + destruct (Hrows id) as (_ & Hp & _).
      rewrite bool_decide_eq_true_2 in Hp by reflexivity.
      eexists. split; [exact Hp|].
      destruct (user_playlist c id) as [r|]; cbn;
        repeat split; try (intros x ->; reflexivity);
        try (intros ->; reflexivity).
    + intros j Hj. destruct (Hrows j) as (_ & Hp & _).
      rewrite bool_decide_eq_false_2 in Hp by congruence. exact Hp.
    + intros j. destruct (Hrows j) as (Hs & _ & Hw). auto.
  - destruct (Hrows id) as (_ & _ & Hw).
    rewrite bool_decide_eq_true_2 in Hw by reflexivity.
    split; [|split; [|split]].
    + intros r Hr. rewrite Hw, Hr. reflexivity.
    + intros Hr. rewrite Hw, Hr. reflexivity.
    + intros j Hj. destruct (Hrows j) as (_ & _ & Hw').
      rewrite bool_decide_eq_false_2 in Hw' by congruence. exact Hw'.
    + intros j. destruct (Hrows j) as (Hs & Hp & _). auto.
Qed.

End StoreEffects.

Lemma run_call_effect_witness :
  exists c' r',
    run_call (CallPlaylist "37i9dQZF1DXcBWIGoYBM5M" None false)
      (sample_conn sample_playlist_db) = (inr tt, c')
    /\ user_playlist c' "37i9dQZF1DXcBWIGoYBM5M" = Some r'
    /\ playlist_name r' = Some "Mix"
    /\ blacklisted r' = Some false
    /\ updated_at r' = Some 1000%Z.
Proof.
  destruct (run_call_effect (sample_conn sample_playlist_db)
              (CallPlaylist "37i9dQZF1DXcBWIGoYBM5M" None false))
    as (c' & Hrun & (r' & Hrow & _ & Hname & Hflag & Htime) & _).
  - intros i Hi. reflexivity.
  - repeat split; eexists; reflexivity.
  - exists c', r'. split; [exact Hrun|]. split; [exact Hrow|].
    split; [exact (Hname eq_refl)|]. split; [exact Hflag | exact Htime].
Defined.

Section RunFacts.

Implicit Types (c : conn) (k : upsert_call) (l : list upsert_call).

Lemma accepts_head c (n : nat) : accepts c (S n) -> accepts c 1.
Proof. apply accepts_weaken. lia. Qed.

Lemma is_Some_if_key {A} (id' id : string) (x : A) (o : option A) :
  is_Some (if bool_decide (id' = id) then Some x else o)
  <-> id' = id \/ is_Some o.
Proof.
  case_bool_decide as H; split.
  - intros _. left. exact H.
  - intros _. eexists. reflexivity.
  - intros Ho. right. exact Ho.
  - intros [Hid|Ho]; [congruence | exact Ho].
Qed.

(** X7. Rows are only ever added.  After a run of upserts the keys of each
    table are the keys it had and the keys the calls on it name: no key is
    lost, and none appears that no call names. *)
Theorem run_calls_keys l :
  forall c,
    accepts c (length l) ->
    has_tables (server_db c) ->
    exists c',
      run_calls l c = (inr tt, c')
      /\ forall id,
           (is_Some (song c' id)
            <-> is_Some (song c id) \/ In id (named_songs l))
           /\ (is_Some (user_playlist c' id)
               <-> is_Some (user_playlist c id) \/ In id (named_playlists l))
           /\ (is_Some (whitelisted_profile c' id)
               <-> is_Some (whitelisted_profile c id)
                   \/ In id (named_profiles l)).
Proof.
  induction l as [|k l IH]; intros c Ha Ht.
  - exists c. split; [reflexivity|]. intros id. cbn. tauto.
  - cbn [length] in Ha.
    destruct (run_call_rows c k (accepts_head _ _ Ha) Ht)
      as (c1 & Hrun & Hc1 & Ht1 & Hrows).
    assert (Ha1 : accepts c1 (length l))
      by (rewrite Hc1; apply accepts_sent; exact Ha).
    destruct (IH c1 Ha1 Ht1) as (c2 & Hrun2 & Hkeys).
    exists c2. cbn [run_calls]. unfold bind. rewrite Hrun.
    split; [exact Hrun2|]. intros id.
    destruct (Hkeys id) as (Hs & Hp & Hw).
    destruct (Hrows id) as (Hs1 & Hp1 & Hw1).
    rewrite Hs, Hp, Hw, Hs1, Hp1, Hw1. clear.
    destruct k as [sid sname aid aname fx | pid pname bl | wid];
      cbn [named_songs named_playlists named_profiles In];
      rewrite ?is_Some_if_key; tauto.
Qed.

(** X8. The last writer wins, field by field.  After a run of upserts, the
    [blacklisted] flag of a playlist is the flag of the last call on it
    and its [fixed] flag that of the last call on the song; the
    [song_name] is the last name that was not null.  A key that no call
    touches, or a name that every call leaves null, reads as before. *)
Theorem run_calls_last_writer l :
  forall c,
    accepts c (length l) ->
    has_tables (server_db c) ->
    exists c',
      run_calls l c = (inr tt, c')
      /\ forall id,
           (user_playlist c' id ≫= blacklisted)
             = match last_blacklisted id l with
               | Some b => Some b
               | None => user_playlist c id ≫= blacklisted
               end
           /\ (song c' id ≫= fixed)
             = match last_fixed id l with
               | Some b => Some b
               | None => song c id ≫= fixed
               end
           /\ (song c' id ≫= song_name)
             = match last_song_name id l with
               | Some x => Some x
               | None => song c id ≫= song_name
               end.
Proof.
  induction l as [|k l IH]; intros c Ha Ht.
  - exists c. split; [reflexivity|]. intros id. cbn. auto.
  - cbn [length] in Ha.
    destruct (run_call_rows c k (accepts_head _ _ Ha) Ht)
      as (c1 & Hrun & Hc1 & Ht1 & Hrows).
    assert (Ha1 : accepts c1 (length l))
      by (rewrite Hc1; apply accepts_sent; exact Ha).
    destruct (IH c1 Ha1 Ht1) as (c2 & Hrun2 & Hlast).
    exists c2. cbn [run_calls]. unfold bind. rewrite Hrun.
    split; [exact Hrun2|]. intros id.
    destruct (Hlast id) as (Hb & Hf & Hn).
    destruct (Hrows id) as (Hs1 & Hp1 & _).
    rewrite Hb, Hf, Hn, Hs1, Hp1. clear.
    cbn [last_blacklisted last_fixed last_song_name].
    destruct (last_blacklisted id l), (last_fixed id l),
      (last_song_name id l);
      destruct k as [sid sname aid aname fx | pid pname bl | wid];
      try case_bool_decide; repeat split; try reflexivity.
    all: try (destruct (user_playlist c id); reflexivity).
    all: try (destruct (song c id); reflexivity).
    all: destruct (song c id), sname; reflexivity.
Qed.

(** X9. Doing an upsert again.  A second call with the same arguments
    leaves the database as the first left it, for a song and for a
    profile; for a playlist it leaves the name and the flag of the row and
    moves [updated_at] to the time of the second call. *)
Theorem run_call_twice c k :
  accepts c 2 ->
  has_tables (server_db c) ->
  exists c1 c2,
    run_call k c = (inr tt, c1)
    /\ run_call k c1 = (inr tt, c2)
    /\ match k with
       | CallPlaylist id _ _ =>
           exists r1 r2,
             user_playlist c1 id = Some r1
             /\ user_playlist c2 id = Some r2
             /\ playlist_name r2 = playlist_name r1
             /\ blacklisted r2 = blacklisted r1
             /\ updated_at r2 = Some (server_now c (S (executed c)))
       | _ => server_db c2 = server_db c1
       end.
Proof.
  intros Ha ([ts Hs] & [tp Hp] & [tw Hw]).
  destruct k as [sid sname aid aname fx | pid pname bl | wid]; cbn [run_call].
  - pose proof (upsert_blacklisted_song_accepted
                  c 1 ts sid sname aid aname fx Ha Hs) as H1.
    set (c1 := sent c _) in H1.
    assert (Ha1 : accepts c1 1) by (apply accepts_sent; exact Ha).
    pose proof (upsert_blacklisted_song_accepted
                  c1 0 _ sid sname aid aname fx Ha1 eq_refl) as H2.
    exists c1. eexists. split; [exact H1|]. split; [exact H2|].
    cbn. f_equal. f_equal. rewrite lookup_insert_eq, insert_insert_eq.
    f_equal. destruct (ts !! sid) as [r|], sname, aid, aname; reflexivity.
  - pose proof (upsert_user_playlist_blacklist_accepted
                  c 1 tp pid pname bl Ha Hp) as H1.
    set (c1 := sent c _) in H1.
    assert (Ha1 : accepts c1 1) by (apply accepts_sent; exact Ha).
    pose proof (upsert_user_playlist_blacklist_accepted
                  c1 0 _ pid pname bl Ha1 eq_refl) as H2.
    exists c1. eexists. split; [exact H1|]. split; [exact H2|].
    eexists _, _. unfold user_playlist. cbn. rewrite !lookup_insert_eq.
    split; [reflexivity|]. split; [reflexivity|].
    destruct (tp !! pid) as [r|], pname; repeat split.
  - pose proof (upsert_whitelisted_profile_accepted c 1 tw wid Ha Hw) as H1.
    set (c1 := sent c _) in H1.
    assert (Ha1 : accepts c1 1) by (apply accepts_sent; exact Ha).
    pose proof (upsert_whitelisted_profile_accepted
                  c1 0 _ wid Ha1 eq_refl) as H2.
    exists c1. eexists. split; [exact H1|]. split; [exact H2|].
    cbn. f_equal. f_equal. unfold insert_profile at 1.
    destruct (insert_profile_lookup (server_now c (executed c)) wid tw)
      as [r Hr].
    rewrite Hr. reflexivity.
Qed.

End RunFacts.

Lemma run_calls_keys_witness :
  let l := [CallSong "0VjIjW4GlUZAMYd2vXMi3b" (Some "Z") None None true;
            CallProfile "P2"] in
  let c := sample_conn sample_db in
  exists c',
    run_calls l c = (inr tt, c')
    /\ forall id,
         (is_Some (song c' id)
          <-> is_Some (song c id) \/ In id (named_songs l))
         /\ (is_Some (user_playlist c' id)
             <-> is_Some (user_playlist c id) \/ In id (named_playlists l))
         /\ (is_Some (whitelisted_profile c' id)
             <-> is_Some (whitelisted_profile c id)
                 \/ In id (named_profiles l)).
Proof.
  intros l c. apply (run_calls_keys l c).
  - intros i Hi. reflexivity.
  - repeat split; eexists; reflexivity.
Defined.

Lemma run_calls_last_writer_witness :
  let l := [CallPlaylist "37i9dQZF1DXcBWIGoYBM5M" (Some "Mix") true;
            CallSong "4iV5W9uYEdYUVa79Axb7Rh" None None None true;
            CallPlaylist "37i9dQZF1DXcBWIGoYBM5M" None false] in
  exists c',
    run_calls l (sample_conn sample_db) = (inr tt, c')
    /\ (user_playlist c' "37i9dQZF1DXcBWIGoYBM5M" ≫= blacklisted) = Some false
    /\ (song c' "4iV5W9uYEdYUVa79Axb7Rh" ≫= fixed) = Some true
    /\ (song c' "4iV5W9uYEdYUVa79Axb7Rh" ≫= song_name) = Some "X".
Proof.
  intros l.
  destruct (run_calls_last_writer l (sample_conn sample_db))
    as (c' & Hrun & Hlast).
  - intros i Hi. reflexivity.
  - repeat split; eexists; reflexivity.
  - exists c'. split; [exact Hrun|].
    destruct (Hlast "37i9dQZF1DXcBWIGoYBM5M") as (Hb & _ & _).
    destruct (Hlast "4iV5W9uYEdYUVa79Axb7Rh") as (_ & Hf & Hn).
    split; [exact Hb|]. split; [exact Hf | exact Hn].
Defined.

Lemma run_call_twice_witness :
  exists c1 c2,
    run_call (CallSong "4iV5W9uYEdYUVa79Axb7Rh" (Some "Z") None None true)
      (sample_conn sample_db) = (inr tt, c1)
    /\ run_call (CallSong "4iV5W9uYEdYUVa79Axb7Rh" (Some "Z") None None true)
         c1 = (inr tt, c2)
    /\ server_db c2 = server_db c1.
Proof.
  apply (run_call_twice (sample_conn sample_db)
           (CallSong "4iV5W9uYEdYUVa79Axb7Rh" (Some "Z"%string) None None true)).
  - intros i Hi. reflexivity.
  - repeat split; eexists; reflexivity.
Defined.

Lemma run_calls_keep_timestamps_witness :
  let l := [CallSong "4iV5W9uYEdYUVa79Axb7Rh" (Some "Z") None None true;
            CallProfile "P1";
            CallSong "4iV5W9uYEdYUVa79Axb7Rh" None (Some "A9") None false] in
  exists c',
    run_calls l (sample_conn sample_db) = (inr tt, c')
    /\ (exists r', song c' "4iV5W9uYEdYUVa79Axb7Rh" = Some r'
                   /\ created_at r' = Some 7%Z)
    /\ whitelisted_profile c' "P1" = Some {| added_at := Some 5%Z |}.
Proof.
  intros l.
  destruct (run_calls_keep_timestamps l (sample_conn sample_db))
    as (c' & Hrun & Hsong & Hprof).
  - intros i Hi. reflexivity.
  - repeat split; eexists; reflexivity.
  - exists c'. split; [exact Hrun|]. split.
    + exact (Hsong "4iV5W9uYEdYUVa79Axb7Rh" sample_song eq_refl).
    + exact (Hprof "P1" {| added_at := Some 5%Z |} eq_refl).
Defined.

(** * Further properties of the endpoints *)

Section RequestRun.

Implicit Types (c conn : conn) (s : statement).

Lemma execute_refused s c (e : string) :
  server_fault c (executed c) = Some e ->
  execute s c = (inl e, sent c (server_db c)).
Proof. intros H. unfold execute. rewrite H. reflexivity. Qed.

Lemma execute_taken s c (d : database) :
  server_fault c (executed c) = None ->
  s (server_now c (executed c)) (server_db c) = inr d ->
  execute s c = (inr tt, sent c d).
Proof. intros H Hs. unfold execute. rewrite H, Hs. reflexivity. Qed.

(** The four statements of a request on a connection that refuses one of
    them: the request raises with the text of the first refusal, and no
    row of any table has changed. *)
Lemma ensure_then_execute_refused conn s (e : string) :
  first_fault conn 4 = Some e ->
  exists c',
    (ensure_tables *> execute s) conn = (inl e, c')
    /\ same_rows conn c'.
Proof.
  unfold first_fault. cbn [first_fault_from]. intros H.
  unfold ensure_tables, sqls. cbn [execute_all]. unfold bind.
  destruct (server_fault conn (executed conn)) as [e0|] eqn:F0.
  { injection H as ->. rewrite (execute_refused _ conn e F0).
    eexists. split; [reflexivity|]. intros id. repeat split. }
  rewrite (execute_taken _ conn _ F0 eq_refl).
  set (c1 := sent conn _).
  change (server_fault conn (S (executed conn)))
    with (server_fault c1 (executed c1)) in H.
  destruct (server_fault c1 (executed c1)) as [e1|] eqn:F1.
  { injection H as ->. rewrite (execute_refused _ c1 e F1).
    eexists. split; [reflexivity|].
    intros id. unfold song, user_playlist, whitelisted_profile. cbn.
    destruct (server_db conn) as [[ts|] tp tw]; cbn;
      rewrite ?lookup_empty; auto. }
  rewrite (execute_taken _ c1 _ F1 eq_refl).
  set (c2 := sent c1 _).
  change (server_fault conn (S (S (executed conn))))
    with (server_fault c2 (executed c2)) in H.
  destruct (server_fault c2 (executed c2)) as [e2|] eqn:F2.
  { injection H as ->. rewrite (execute_refused _ c2 e F2).
    eexists. split; [reflexivity|].
    intros id. unfold song, user_playlist, whitelisted_profile. cbn.
    destruct (server_db conn) as [[ts|] [tp|] tw]; cbn;
      rewrite ?lookup_empty; auto. }
  rewrite (execute_taken _ c2 _ F2 eq_refl).
  set (c3 := sent c2 _). unfold ret.
  change (server_fault conn (S (S (S (executed conn)))))
    with (server_fault c3 (executed c3)) in H.
  destruct (server_fault c3 (executed c3)) as [e3|] eqn:F3; [|discriminate].
  injection H as ->. rewrite (execute_refused _ c3 e F3).
  eexists. split; [reflexivity|].
  intros id. unfold song, user_playlist, whitelisted_profile. cbn.
  destruct (server_db conn) as [[ts|] [tp|] [tw|]]; cbn;
    rewrite ?lookup_empty; auto.
Qed.

Lemma ensure_then_execute_accepted conn s (d' : database) :
  accepts conn 4 ->
  s (server_now conn (3 + executed conn)) (with_tables (server_db conn))
    = inr d' ->
  (ensure_tables *> execute s) conn = (inr tt, sent (ensured conn) d').
Proof.
  intros Ha Hs. unfold bind. rewrite (ensure_tables_accepted conn 1 Ha).
  exact (execute_accepted s (ensured conn) d' 0 (accepts_ensured conn 1 Ha) Hs).
Qed.

End RequestRun.

Section RequestCases.

Implicit Types (conn : conn) (s : statement).








Variable urlparse : string -> option Urllib.ParseResult.


End RequestCases.

Section StorePhases.

Implicit Types (w : world) (conn : conn).

(** X11. A write that fails.  With a connection on which the server
    refuses one of the four statements of the request, each endpoint that
    has a non-empty id answers 500 with the text of the first refusal, and
    no row of any table has changed. *)
Theorem store_refused w conn (id e : string) (flag : bool) :
  id <> EmptyString ->
  get_db_conn w = Some conn ->
  first_fault conn 4 = Some e ->
  (exists c', blacklist_track_store w (Some id)
                = (Response (Error e) 500, Some c')
              /\ same_rows conn c')
  /\ (exists c', blacklist_playlist_store w flag (Some id)
                   = (Response (Error e) 500, Some c')
                 /\ same_rows conn c')
  /\ (exists c', whitelist_profile_store w (Some id)
                   = (Response (Error e) 500, Some c')
                 /\ same_rows conn c').
Proof.
  intros Hid Hconn Hf. destruct id as [|ch id]; [congruence|].
  split; [|split].
  - unfold blacklist_track_store.
    destruct (enrich_track w (String ch id)) as [[sname aid] aname].
    rewrite Hconn. unfold upsert_blacklisted_song.
    destruct (ensure_then_execute_refused conn
                (sql_upsert_blacklisted_song (String ch id) sname aid aname true)
                e Hf) as (c' & -> & Hrows).
    exists c'. auto.
  - unfold blacklist_playlist_store. rewrite Hconn.
    unfold upsert_user_playlist_blacklist.
    destruct (ensure_then_execute_refused conn
                (sql_upsert_user_playlist (String ch id)
                   (enrich_playlist w (String ch id)) flag)
                e Hf) as (c' & -> & Hrows).
    exists c'. auto.
  - unfold whitelist_profile_store. rewrite Hconn.
    unfold upsert_whitelisted_profile.
    destruct (ensure_then_execute_refused conn
                (sql_upsert_whitelisted_profile (String ch id))
                e Hf) as (c' & -> & Hrows).
    exists c'. auto.
Qed.

Lemma ensured_rows conn :
  forall id,
    song (ensured conn) id = song conn id
    /\ user_playlist (ensured conn) id = user_playlist conn id
    /\ whitelisted_profile (ensured conn) id = whitelisted_profile conn id.
Proof.
  intros id. unfold song, user_playlist, whitelisted_profile, ensured. cbn.
  destruct (server_db conn) as [[ts|] [tp|] [tw|]]; cbn;
    rewrite ?lookup_empty; auto.
Qed.

(** Lines 166-193 on a non-empty id and a connection that takes the four
    statements: the answer and the rows. *)
Lemma blacklist_track_store_rows w conn (id : string) :
  id <> EmptyString ->
  get_db_conn w = Some conn ->
  accepts conn 4 ->
  exists conn',
    blacklist_track_store w (Some id)
      = (Response (Msg ("Blacklisted track " ++ id ++ " (fixed=true)")) 200,
         Some conn')
    /\ (let '(sname, aid, aname) := enrich_track w id in
        song conn' id
          = Some (merge_song (server_now conn (3 + executed conn))
                    sname aid aname true (song conn id)))
    /\ (exists r, song conn' id = Some r /\ fixed r = Some true)
    /\ (forall k, k <> id -> song conn' k = song conn k)
    /\ (forall k, user_playlist conn' k = user_playlist conn k
                  /\ whitelisted_profile conn' k = whitelisted_profile conn k).
Proof.
  intros Hid Hconn Ha. destruct id as [|ch id]; [congruence|].
  unfold blacklist_track_store.
  destruct (enrich_track w (String ch id)) as [[sname aid] aname].
  rewrite Hconn. unfold upsert_blacklisted_song.
  rewrite (ensure_then_execute_accepted conn _ _ Ha eq_refl).
  eexists. split; [reflexivity|].
  pose proof (ensured_rows conn) as Hrows.
  unfold song, user_playlist, whitelisted_profile in *. cbn in *.
  assert (Hs : forall k, default ∅ (blacklisted_songs (server_db conn)) !! k
                         = match blacklisted_songs (server_db conn) with
                           | Some t => t !! k
                           | None => None
                           end)
    by (intros k; apply (Hrows k)).
  split; [rewrite lookup_insert_eq, Hs; reflexivity|].
  split.
  { rewrite lookup_insert_eq. eexists. split; [reflexivity|].
    destruct (default ∅ (blacklisted_songs (server_db conn)) !! String ch id);
      reflexivity. }
  split.
  - intros k Hk. rewrite lookup_insert_ne by congruence. apply Hs.
  - intros k. destruct (Hrows k) as (_ & Hp & Hw). auto.
Qed.

(** X12. A track blacklisted.  With a non-empty id and a connection that
    takes the four statements, the answer is 200 and names the id, and the
    row of the id has [fixed] true and the [created_at] it had, or the
    time of the insert.  When the client is absent or its lookup raises,
    the three name fields stay as stored.  When the client finds the
    track, [song_name] is the name of the track and [artist_id] and
    [artist_name] are those of its first artist, each stored value staying
    where the catalog has none, and both staying when the track has no
    artist.  No other song, no playlist and no profile changes. *)
Theorem blacklist_track_store_written w conn (id : string) :
  id <> EmptyString ->
  get_db_conn w = Some conn ->
  accepts conn 4 ->
  exists conn' r',
    blacklist_track_store w (Some id)
      = (Response (Msg ("Blacklisted track " ++ id ++ " (fixed=true)")) 200,
         Some conn')
    /\ song conn' id = Some r'
    /\ fixed r' = Some true
    /\ (forall r, song conn id = Some r -> created_at r' = created_at r)
    /\ (song conn id = None ->
        created_at r' = Some (server_now conn (3 + executed conn)))
    /\ (_sp w = None \/ (exists sp, _sp w = Some sp /\ track sp id = None) ->
        song_name r' = song conn id ≫= song_name
        /\ artist_id r' = song conn id ≫= artist_id
        /\ artist_name r' = song conn id ≫= artist_name)
    /\ (forall sp t,
          _sp w = Some sp ->
          track sp id = Some t ->
          (forall x, t_name t = Some x -> song_name r' = Some x)
          /\ (t_name t = None -> song_name r' = song conn id ≫= song_name)
          /\ (t_artists t = [] ->
              artist_id r' = song conn id ≫= artist_id
              /\ artist_name r' = song conn id ≫= artist_name)
          /\ (forall a rest,
                t_artists t = a :: rest ->
                (forall x, a_id a = Some x -> artist_id r' = Some x)
                /\ (a_id a = None ->
                    artist_id r' = song conn id ≫= artist_id)
                /\ (forall x, a_name a = Some x -> artist_name r' = Some x)
                /\ (a_name a = None ->
                    artist_name r' = song conn id ≫= artist_name)))
    /\ (forall k, k <> id -> song conn' k = song conn k)
    /\ (forall k, user_playlist conn' k = user_playlist conn k
                  /\ whitelisted_profile conn' k = whitelisted_profile conn k).
Proof.
  intros Hid Hconn Ha.
  destruct (blacklist_track_store_rows w conn id Hid Hconn Ha)
    as (conn' & Hres & Hrow & _ & Hsongs & Hothers).
  destruct (enrich_track w id) as [[sname aid] aname] eqn:He.
  set (now := server_now conn (3 + executed conn)) in *.
  exists conn', (merge_song now sname aid aname true (song conn id)).
  assert (Hn : song_name (merge_song now sname aid aname true (song conn id))
               = match sname with
                 | Some x => Some x
                 | None => song conn id ≫= song_name
                 end)
    by (destruct (song conn id), sname; reflexivity).
  assert (Hi : artist_id (merge_song now sname aid aname true (song conn id))
               = match aid with
                 | Some x => Some x
                 | None => song conn id ≫= artist_id
                 end)
    by (destruct (song conn id), aid; reflexivity).
  assert (Hm : artist_name (merge_song now sname aid aname true (song conn id))
               = match aname with
                 | Some x => Some x
                 | None => song conn id ≫= artist_name
                 end)
    by (destruct (song conn id), aname; reflexivity).
  rewrite Hn, Hi, Hm.
  split; [exact Hres|]. split; [exact Hrow|].
  split; [destruct (song conn id); reflexivity|].
  split; [intros r Hr; rewrite Hr; reflexivity|].
  split; [intros Hr; rewrite Hr; reflexivity|].
  unfold enrich_track in He.
  split; [|split; [|split; [exact Hsongs | exact Hothers]]].
  - intros [Hsp|(sp & Hsp & Ht)].
    + rewrite Hsp in He. injection He as <- <- <-. auto.
    + rewrite Hsp, Ht in He. injection He as <- <- <-. auto.
  - intros sp t Hsp Ht. rewrite Hsp, Ht in He.
    destruct (t_artists t) as [|a0 rest0] eqn:Hart;
      injection He as <- <- <-.
    + split; [intros x ->; reflexivity|].
      split; [intros ->; reflexivity|].
      split; [auto|]. intros a rest H. discriminate H.
    + split; [intros x ->; reflexivity|].
      split; [intros ->; reflexivity|].
      split; [intros H; discriminate H|].
      intros a rest H. injection H as <- <-.
      repeat split; try (intros x ->; reflexivity);
        try (intros ->; reflexivity).
Qed.


End StorePhases.

Lemma store_refused_witness :
  let conn := refusing_conn sample_db 3 "connection lost" in
  let w := {| _sp := None; get_db_conn := Some conn |} in
  exists c',
    blacklist_track_store w (Some "0VjIjW4GlUZAMYd2vXMi3b")
      = (Response (Error "connection lost") 500, Some c')
    /\ same_rows conn c'.
Proof.
  intros conn w.
  destruct (store_refused w conn "0VjIjW4GlUZAMYd2vXMi3b" "connection lost"
              true) as (H & _ & _).
  - discriminate.
  - reflexivity.
  - reflexivity.
  - exact H.
Defined.

Lemma blacklist_track_store_written_witness :
  let conn := sample_conn sample_db in
  let w := {| _sp := Some sample_track_client; get_db_conn := Some conn |} in
  exists conn' r',
    blacklist_track_store w (Some "4iV5W9uYEdYUVa79Axb7Rh")
      = (Response (Msg "Blacklisted track 4iV5W9uYEdYUVa79Axb7Rh (fixed=true)")
           200, Some conn')
    /\ song conn' "4iV5W9uYEdYUVa79Axb7Rh" = Some r'
    /\ fixed r' = Some true
    /\ created_at r' = Some 7%Z
    /\ song_name r' = Some "Song"
    /\ artist_id r' = Some "AR"
    /\ artist_name r' = Some "Y".
Proof.
  intros conn w.
  destruct (blacklist_track_store_written w conn "4iV5W9uYEdYUVa79Axb7Rh")
    as (conn' & r' & Hres & Hrow & Hfixed & Hcreated & _ & _ & Hfound & _).
  - discriminate.
  - reflexivity.
  - intros i Hi. reflexivity.
  - destruct (Hfound sample_track_client
                {| t_name := Some "Song"%string;
                   t_artists :=
                     [ {| a_id := Some "AR"%string; a_name := None |};
                       {| a_id := Some "AR2"%string;
                          a_name := Some "Second"%string |} ] |}
                eq_refl eq_refl) as (Hname & _ & _ & Hartist).
    destruct (Hartist {| a_id := Some "AR"%string; a_name := None |}
                [ {| a_id := Some "AR2"%string;
                     a_name := Some "Second"%string |} ] eq_refl)
      as (Haid & _ & _ & Haname).
    exists conn', r'. split; [exact Hres|]. split; [exact Hrow|].
    split; [exact Hfixed|].
    split; [exact (Hcreated sample_song eq_refl)|].
    split; [exact (Hname _ eq_refl)|].
    split; [exact (Haid _ eq_refl) | exact (Haname eq_refl)].
Defined.


Section EndToEnd.

Variable urlparse : string -> option Urllib.ParseResult.

(** The resolver on a stripped [spotify:] URI. *)
Lemma extract_id_from_input_stripped_uri (value kind id : string)
    (rest : list string) :
  Py.split ":" value = "spotify" :: kind :: id :: rest ->
  is_id22 id ->
  extract_id_from_input urlparse (Py.strip value) = (Some kind, Some id).
Proof.
  intros Hsplit Hid.
  assert (Hrid : Py.rstrip_by Py.isspace id = id)
    by (eapply take_alnum_rstrip; exact Hid).
  destruct value as [|c value]; [discriminate Hsplit|].
  assert (Hc : c = "s"%char).
  { cbn in Hsplit. destruct (Ascii.eqb c ":"); [discriminate|].
    destruct (Py.split ":" value); injection Hsplit; congruence. }
  subst c.
  destruct (split_rstrip_prefix Py.isspace ":" (String "s" value) eq_refl
              ["spotify"; kind] id rest Hsplit Hrid) as [l' Hl'].
  change (Py.rstrip_by Py.isspace (String "s" value))
    with (Py.strip (String "s" value)) in Hl'.
  set (v := Py.strip (String "s" value)) in *.
  assert (Hv : Py.strip v = v) by apply strip_by_idem.
  destruct v as [|c v]; [discriminate Hl'|].
  unfold extract_id_from_input.
  change (Py.str_falsy (String c v)) with false. cbv iota zeta.
  rewrite Hv.
  pose proof (split_startswith ":" _ "spotify" kind (id :: l') Hl') as Hpre.
  change (String.append "spotify" (String ":" EmptyString))
    with "spotify:" in Hpre.
  unfold uri_form. rewrite Hpre, Hl'. reflexivity.
Qed.

(** X14. No kind check bars a write.  For an input [spotify:kind:id] with
    [id] of 22 alphanumerics, whatever the kind, [api_blacklist_track]
    goes on with [id] as a track and [api_blacklist_playlist] with [id]
    as a playlist. *)
Theorem blacklist_endpoints_take_any_kind (w : world) (b : option json)
    (value kind id : string) (rest : list string) :
  Py.split ":" value = "spotify" :: kind :: id :: rest ->
  is_id22 id ->
  let p := {| input := Some (JStr value); blacklisted_key := b |} in
  api_blacklist_track urlparse w p = blacklist_track_store w (Some id)
  /\ api_blacklist_playlist urlparse w p
     = blacklist_playlist_store w (blacklisted_flag_of p) (Some id).
Proof.
  intros Hsplit Hid p.
  assert (Hin : input_text p = inr (Py.strip value)).
  { unfold input_text, p. cbn. destruct value; [discriminate Hsplit|].
    reflexivity. }
  pose proof (extract_id_from_input_stripped_uri value kind id rest Hsplit Hid)
    as Hext.
  assert (Hcorr : forall expected,
             kind_mismatch_correction expected (Some kind) (Some id)
             = inr (Some id)).
  { intros expected. unfold kind_mismatch_correction.
    destruct (Py.truthy (Some kind)
              && negb (bool_decide (Some kind = Some expected)));
      [|reflexivity].
    rewrite (SPOTIFY_ID_RE_search_id22 _ Hid). reflexivity. }
  unfold api_blacklist_track, api_blacklist_playlist,
    blacklist_track_id, blacklist_playlist_id.
  rewrite Hin, Hext, !Hcorr. split; reflexivity.
Qed.

(** When an endpoint lets an exception escape, in terms of the text it
    works on. *)
Lemma endpoints_raise_cases (w : world) (p : payload) (e : exn) :
  (fst (api_blacklist_track urlparse w p) = Unhandled e
   <-> input_text p = inl e)
  /\ (fst (api_blacklist_playlist urlparse w p) = Unhandled e
      <-> input_text p = inl e)
  /\ (fst (api_whitelist_profile urlparse w p) = Unhandled e
      <-> input_text p = inl e
          \/ (e = TypeError /\ input_text p = inr EmptyString)).
Proof.
  assert (Hcorr : forall expected val,
             exists tid,
               (let '(kind, id_or_raw) := extract_id_from_input urlparse val in
                kind_mismatch_correction expected kind id_or_raw) = inr tid).
  { intros expected val.
    destruct (extract_id_from_input urlparse val) as [kind i] eqn:Hext.
    unfold kind_mismatch_correction.
    destruct (Py.truthy kind && negb (bool_decide (kind = Some expected)))
      eqn:Hk; [|eexists; reflexivity].
    destruct (decide (val = EmptyString)) as [->|Hne].
    - cbn in Hext. injection Hext as <- <-. discriminate Hk.
    - pose proof (extract_id_from_input_has_id urlparse val Hne) as [x Hx].
      rewrite Hext in Hx. cbn in Hx. subst i.
      destruct (SPOTIFY_ID_RE_search x); eexists; reflexivity. }
  assert (Hstore1 : forall tid, fst (blacklist_track_store w tid) <> Unhandled e).
  { intros tid. unfold blacklist_track_store.
    destruct tid as [[|ch id]|]; try discriminate.
    destruct (enrich_track w (String ch id)) as [[? ?] ?].
    destruct (get_db_conn w); [|discriminate].
    destruct ((ensure_tables *> _) _) as [[?|?] ?]; discriminate. }
  assert (Hstore2 : forall flag tid,
             fst (blacklist_playlist_store w flag tid) <> Unhandled e).
  { intros flag tid. unfold blacklist_playlist_store.
    destruct tid as [[|ch id]|]; try discriminate.
    destruct (get_db_conn w); [|discriminate].
    destruct ((ensure_tables *> _) _) as [[?|?] ?]; discriminate. }
  assert (Hstore3 : forall tid,
             fst (whitelist_profile_store w tid) <> Unhandled e).
  { intros tid. unfold whitelist_profile_store.
    destruct tid as [[|ch id]|]; try discriminate.
    destruct (get_db_conn w); [|discriminate].
    destruct ((ensure_tables *> _) _) as [[?|?] ?]; discriminate. }
  unfold api_blacklist_track, api_blacklist_playlist, api_whitelist_profile.
  destruct (input_text p) as [e0|val].
  { cbn. split; [|split].
    - split; intros H; injection H as ->; reflexivity.
    - split; intros H; injection H as ->; reflexivity.
    - split.
      + intros H. injection H as ->. left. reflexivity.
      + intros [H|[_ H]]; [injection H as ->; reflexivity | discriminate]. }
  split; [|split].
  - unfold blacklist_track_id.
    destruct (Hcorr "track"%string val) as [tid ->].
    split; [intros H; destruct (Hstore1 tid H) | discriminate].
  - cbv zeta. unfold blacklist_playlist_id.
    destruct (Hcorr "playlist"%string val) as [tid ->].
    split; [intros H; destruct (Hstore2 _ tid H) | discriminate].
  - unfold whitelist_profile_id.
    destruct (decide (val = EmptyString)) as [->|Hne].
    + cbn. split.
      * intros H. injection H as <-. right. auto.
      * intros [H|[-> _]]; [discriminate | reflexivity].
    + destruct (extract_id_from_input urlparse val) as [kind i] eqn:Hext.
      pose proof (extract_id_from_input_has_id urlparse val Hne) as [x Hx].
      rewrite Hext in Hx. cbn in Hx. subst i.
      unfold owner_lookup_wanted.
      destruct (bool_decide (kind = Some "playlist"%string));
        [|destruct (negb (Py.truthy kind));
          [destruct (bool_decide (is_Some (SPOTIFY_ID_RE_search x)))|]].
      all: split;
        [intros H; destruct (Hstore3 _ H)
        | intros [H|[_ H]]; [discriminate | injection H as H; congruence]].
Qed.

Lemma lstrip_empty_all_space (s : string) :
  Py.lstrip_by Py.isspace s = EmptyString <-> Py.all_space s = true.
Proof.
  induction s as [|c s IH]; [split; reflexivity|].
  cbn. destruct (Py.isspace c); [exact IH|].
  split; discriminate.
Qed.

(** [strip] leaves nothing exactly of a text that is all whitespace. *)
Lemma strip_empty_all_space (s : string) :
  Py.strip s = EmptyString <-> Py.all_space s = true.
Proof.
  unfold Py.strip, Py.strip_by. split.
  - intros H. apply lstrip_empty_all_space.
    destruct (lstrip_by_head Py.isspace s) as [Hl|(c & t & Hl & Hc)];
      [exact Hl|].
    rewrite Hl in H.
    rewrite (rstrip_by_cons Py.isspace c t) in H by (right; exact Hc).
    discriminate H.
  - intros H. apply lstrip_empty_all_space in H. rewrite H. reflexivity.
Qed.

(** The text an endpoint works on, read off the value under [input]. *)
Lemma input_text_raises (p : payload) (e : exn) :
  input_text p = inl e
  <-> e = AttributeError
      /\ (input p = Some (JBool true) \/ input p = Some (JOther true)).
Proof.
  unfold input_text.
  destruct (input p) as [j|]; [destruct j as [|b|s|b]|].
  - split; [discriminate | intros [_ [H|H]]; discriminate H].
  - destruct b; cbn.
    + split; [intros H; injection H as <-; auto | intros [-> _]; reflexivity].
    + split; [discriminate | intros [_ [H|H]]; discriminate H].
  - destruct s; cbn;
      (split; [discriminate | intros [_ [H|H]]; discriminate H]).
  - destruct b; cbn.
    + split; [intros H; injection H as <-; auto | intros [-> _]; reflexivity].
    + split; [discriminate | intros [_ [H|H]]; discriminate H].
  - split; [discriminate | intros [_ [H|H]]; discriminate H].
Qed.

Lemma input_text_blank (p : payload) :
  input_text p = inr EmptyString
  <-> input p = None \/ input p = Some JNull
      \/ input p = Some (JBool false) \/ input p = Some (JOther false)
      \/ exists s, input p = Some (JStr s) /\ Py.all_space s = true.
Proof.
  unfold input_text.
  destruct (input p) as [j|]; [destruct j as [|b|s|b]|].
  - split; [auto | reflexivity].
  - destruct b; cbn.
    + split; [discriminate|].
      intros [H|[H|[H|[H|(s0 & H & _)]]]]; discriminate H.
    + split; [auto | reflexivity].
  - assert (Hs : (if json_truthy (JStr s)
                  then inr (Py.strip s) else inr (Py.strip ""))
                 = (inr (Py.strip s) : exn + string))
      by (destruct s; reflexivity).
    rewrite Hs. split.
    + intros H. injection H as H. apply strip_empty_all_space in H.
      right. right. right. right. exists s. auto.
    + intros [H|[H|[H|[H|(s0 & H & Hs0)]]]]; try discriminate H.
      injection H as <-. apply strip_empty_all_space in Hs0.
      rewrite Hs0. reflexivity.
  - destruct b; cbn.
    + split; [discriminate|].
      intros [H|[H|[H|[H|(s0 & H & _)]]]]; discriminate H.
    + split; [auto 6 | reflexivity].
  - split; [auto | reflexivity].
Qed.

(** X15. When an endpoint lets an exception escape, the body of the
    request being a JSON object or a falsy value.  The two blacklist
    endpoints raise exactly when the value under [input] is truthy and not
    a string (a true boolean, a non-zero number, a non-empty array or
    object): [AttributeError].  [api_whitelist_profile] raises then too,
    and also, with [TypeError], exactly when the input is missing, null,
    false, a zero or empty value, or a string that is empty or all
    whitespace. *)
Theorem endpoints_raise_iff (w : world) (p : payload) (e : exn) :
  let not_a_string :=
    input p = Some (JBool true) \/ input p = Some (JOther true) in
  let blank :=
    input p = None \/ input p = Some JNull
    \/ input p = Some (JBool false) \/ input p = Some (JOther false)
    \/ exists s, input p = Some (JStr s) /\ Py.all_space s = true in
  (fst (api_blacklist_track urlparse w p) = Unhandled e
   <-> e = AttributeError /\ not_a_string)
  /\ (fst (api_blacklist_playlist urlparse w p) = Unhandled e
      <-> e = AttributeError /\ not_a_string)
  /\ (fst (api_whitelist_profile urlparse w p) = Unhandled e
      <-> (e = AttributeError /\ not_a_string)
          \/ (e = TypeError /\ blank)).
Proof.
  intros not_a_string blank.
  destruct (endpoints_raise_cases w p e) as (Ht & Hp & Hw).
  rewrite Ht, Hp, Hw, (input_text_raises p e), (input_text_blank p).
  subst not_a_string blank. cbv beta. tauto.
Qed.

End EndToEnd.

Lemma blacklist_endpoints_take_any_kind_witness :
  let w := {| _sp := None; get_db_conn := Some (sample_conn no_tables) |} in
  let p := request "spotify:playlist:37i9dQZF1DXcBWIGoYBM5M" in
  api_blacklist_track Urllib.urlparse w p
    = blacklist_track_store w (Some "37i9dQZF1DXcBWIGoYBM5M")
  /\ api_blacklist_playlist Urllib.urlparse w p
     = blacklist_playlist_store w true (Some "37i9dQZF1DXcBWIGoYBM5M").
Proof.
  intros w p.
  apply (blacklist_endpoints_take_any_kind Urllib.urlparse w None
           "spotify:playlist:37i9dQZF1DXcBWIGoYBM5M" "playlist"
           "37i9dQZF1DXcBWIGoYBM5M" []).
  - reflexivity.
  - reflexivity.
Defined.

Section EnrichmentAndKinds.

Variable urlparse : string -> option Urllib.ParseResult.

(** X17. When the client is not asked for an owner.  If the input of
    [api_whitelist_profile] resolves to a kind other than [playlist], and
    the kind is not empty or the id holds no run of 22 alphanumerics, the
    resolved id is the profile that is whitelisted, whatever the client
    is. *)
Theorem whitelist_profile_other_kind (w : world) (p : payload)
    (val id : string) (kind : option string) :
  input_text p = inr val ->
  extract_id_from_input urlparse val = (kind, Some id) ->
  kind <> Some "playlist" ->
  Py.truthy kind = true \/ SPOTIFY_ID_RE_search id = None ->
  api_whitelist_profile urlparse w p = whitelist_profile_store w (Some id)
  /\ forall sp',
       api_whitelist_profile urlparse
         {| _sp := sp'; get_db_conn := get_db_conn w |} p
       = api_whitelist_profile urlparse w p.
Proof.
  intros Hval Hext Hp Hk.
  assert (Hid : forall w0, whitelist_profile_id urlparse w0 val = inr (Some id)).
  { intros w0. unfold whitelist_profile_id. rewrite Hext.
    unfold owner_lookup_wanted.
    rewrite bool_decide_eq_false_2 by exact Hp.
    destruct Hk as [-> | Hnone]; [reflexivity|].
    destruct (negb (Py.truthy kind)); [|reflexivity].
    rewrite Hnone. reflexivity. }
  unfold api_whitelist_profile. split.
  - rewrite Hval, Hid. reflexivity.
  - intros sp'. rewrite Hval, !Hid. reflexivity.
Qed.

(** X21. A bare id is tried as a playlist.  When the input of
    [api_whitelist_profile] resolves to no kind and an id that holds a run
    of 22 alphanumerics, and the client finds a playlist under that id
    with owner [P1], it is [P1] that is whitelisted.  The store gives a
    connection that accepts the four statements. *)
Theorem whitelist_profile_bare_id_owner (w : world) (p : payload)
    (val id P1 : string) (sp : Spotify) (pl : playlist_info) (conn : conn) :
  input_text p = inr val ->
  extract_id_from_input urlparse val = (None, Some id) ->
  is_Some (SPOTIFY_ID_RE_search id) ->
  _sp w = Some sp ->
  playlist sp id = Some pl ->
  p_owner_id pl = Some P1 ->
  P1 <> EmptyString ->
  get_db_conn w = Some conn ->
  accepts conn 4 ->
  exists conn',
    api_whitelist_profile urlparse w p
      = (Response (Msg ("Whitelisted profile " ++ P1)) 200, Some conn')
    /\ is_Some (whitelisted_profile conn' P1)
    /\ (forall k, k <> P1 ->
        whitelisted_profile conn' k = whitelisted_profile conn k).
Proof.
  intros Hval Hext Hfound Hsp Hpl Hown HP1 Hconn Ha.
  unfold api_whitelist_profile, whitelist_profile_id.
  rewrite Hval, Hext. unfold owner_lookup_wanted.
  rewrite (bool_decide_eq_false_2 (None = Some "playlist")) by discriminate.
  cbn [Py.truthy negb].
  rewrite (bool_decide_eq_true_2 _ Hfound).
  unfold owner_redirect. rewrite Hsp, Hpl, Hown.
  assert (Ht : Py.truthy (Some P1) = true)
    by (destruct P1; [congruence | reflexivity]).
  rewrite Ht.
  destruct (whitelist_profile_store_written w conn P1 HP1 Hconn Ha)
    as (conn' & Hres & Hrow & _ & Hother).
  exists conn'. auto.
Qed.

End EnrichmentAndKinds.

Lemma whitelist_profile_other_kind_witness :
  let w := {| _sp := Some (sample_client "P1");
              get_db_conn := Some (sample_conn no_tables) |} in
  let p := request "spotify:user:alice" in
  api_whitelist_profile Urllib.urlparse w p
    = whitelist_profile_store w (Some "alice").
Proof.
  intros w p.
  apply (whitelist_profile_other_kind Urllib.urlparse w p
           "spotify:user:alice" "alice" (Some "user"%string)).
  - reflexivity.
  - reflexivity.
  - discriminate.
  - left. reflexivity.
Defined.

Lemma whitelist_profile_bare_id_owner_witness :
  let conn := sample_conn no_tables in
  let w := {| _sp := Some (sample_client "P1"); get_db_conn := Some conn |} in
  exists conn',
    api_whitelist_profile Urllib.urlparse w (request "37i9dQZF1DXcBWIGoYBM5M")
      = (Response (Msg "Whitelisted profile P1") 200, Some conn')
    /\ is_Some (whitelisted_profile conn' "P1")
    /\ (forall k, k <> "P1" ->
        whitelisted_profile conn' k = whitelisted_profile conn k).
Proof.
  intros conn w.
  apply (whitelist_profile_bare_id_owner Urllib.urlparse w
           (request "37i9dQZF1DXcBWIGoYBM5M")
           "37i9dQZF1DXcBWIGoYBM5M" "37i9dQZF1DXcBWIGoYBM5M" "P1"
           (sample_client "P1")
           {| p_name := Some "Mix"%string; p_owner_id := Some "P1"%string |}
           conn).
  - reflexivity.
  - vm_compute. reflexivity.
  - eexists. reflexivity.
  - reflexivity.
  - reflexivity.
  - reflexivity.
  - discriminate.
  - reflexivity.
  - intros i Hi. reflexivity.
Defined.

Section Environment.

Implicit Types (environ : gmap string string) (connect : string -> option conn).

(** X18. Where the connection comes from.  [get_db_conn] gives a
    connection exactly when connecting succeeds to the value of
    [DATABASE_URL], if that is set and not empty, and else to the value of
    [RAILWAY_DATABASE_URL], if that is set and not empty. *)
Theorem get_db_conn_source environ connect (c : conn) :
  Env.get_db_conn environ connect = Some c
  <-> exists u,
        u <> EmptyString /\ connect u = Some c
        /\ (environ !! "DATABASE_URL" = Some u
            \/ (unset environ "DATABASE_URL"
                /\ environ !! "RAILWAY_DATABASE_URL" = Some u)).
Proof.
  unfold Env.get_db_conn, unset. split.
  - destruct (environ !! "DATABASE_URL") as [[|a u]|] eqn:Hd.
    + destruct (environ !! "RAILWAY_DATABASE_URL") as [[|a u]|] eqn:Hr;
        try discriminate.
      intros H. exists (String a u). cbn in H. repeat split; auto; discriminate.
    + intros H. exists (String a u). cbn in H. repeat split; auto; discriminate.
    + destruct (environ !! "RAILWAY_DATABASE_URL") as [[|a u]|] eqn:Hr;
        try discriminate.
      intros H. exists (String a u). cbn in H. repeat split; auto; discriminate.
  - intros (u & Hu & Hc & [Hd|[[Hd|Hd] Hr]]); rewrite Hd; try rewrite Hr;
      destruct u; try congruence; exact Hc.
Qed.

(** X19. A process without a connection string.  When neither variable is
    set to a non-empty value, every request that has a non-empty id is
    answered 500 [DB unavailable], in each endpoint. *)
Theorem unconfigured_store_unavailable environ connect (sp : option Spotify)
    (id : string) (flag : bool) :
  unset environ "DATABASE_URL" ->
  unset environ "RAILWAY_DATABASE_URL" ->
  id <> EmptyString ->
  let w := world_of environ connect sp in
  blacklist_track_store w (Some id)
    = (Response (Error "DB unavailable") 500, None)
  /\ blacklist_playlist_store w flag (Some id)
     = (Response (Error "DB unavailable") 500, None)
  /\ whitelist_profile_store w (Some id)
     = (Response (Error "DB unavailable") 500, None).
Proof.
  intros Hd Hr Hid w.
  assert (Hconn : get_db_conn w = None).
  { unfold w, world_of, Env.get_db_conn. cbn.
    destruct Hd as [-> | ->], Hr as [-> | ->]; reflexivity. }
  destruct id as [|ch id]; [congruence|].
  unfold blacklist_track_store, blacklist_playlist_store,
    whitelist_profile_store.
  destruct (enrich_track w (String ch id)) as [[? ?] ?].
  rewrite Hconn. repeat split.
Qed.

End Environment.

Lemma unconfigured_store_unavailable_witness :
  let w := world_of {[ "DATABASE_URL"%string := EmptyString ]}
             (fun _ => Some (sample_conn sample_db)) None in
  blacklist_track_store w (Some "4iV5W9uYEdYUVa79Axb7Rh")
    = (Response (Error "DB unavailable") 500, None)
  /\ blacklist_playlist_store w true (Some "4iV5W9uYEdYUVa79Axb7Rh")
     = (Response (Error "DB unavailable") 500, None)
  /\ whitelist_profile_store w (Some "4iV5W9uYEdYUVa79Axb7Rh")
     = (Response (Error "DB unavailable") 500, None).
Proof.
  apply (unconfigured_store_unavailable
           {[ "DATABASE_URL"%string := EmptyString ]}
           (fun _ => Some (sample_conn sample_db)) None
           "4iV5W9uYEdYUVa79Axb7Rh" true).
  - right. reflexivity.
  - left. reflexivity.
  - discriminate.
Defined.

Section EnsureTables.

(** X20. [ensure_tables] can be run again and again.  On a connection
    that takes its statements it leaves all three tables there and every
    row as it was, and a second run changes nothing. *)
Theorem ensure_tables_idempotent (c : conn) :
  accepts c 6 ->
  exists c1 c2,
    ensure_tables c = (inr tt, c1)
    /\ ensure_tables c1 = (inr tt, c2)
    /\ has_tables (server_db c1)
    /\ same_rows c c1
    /\ server_db c2 = server_db c1.
Proof.
  intros Ha. exists (ensured c), (ensured (ensured c)).
  split; [exact (ensure_tables_accepted c 3 Ha)|].
  split; [exact (ensure_tables_accepted (ensured c) 0 (accepts_ensured c 3 Ha))|].
  split; [repeat split; eexists; reflexivity|].
  split; [intros id; apply ensured_rows|].
  cbn. unfold with_tables. cbn. reflexivity.
Qed.

End EnsureTables.

Lemma ensure_tables_idempotent_witness :
  exists c1 c2,
    ensure_tables (sample_conn no_tables) = (inr tt, c1)
    /\ ensure_tables c1 = (inr tt, c2)
    /\ has_tables (server_db c1)
    /\ same_rows (sample_conn no_tables) c1
    /\ server_db c2 = server_db c1.
Proof.
  apply (ensure_tables_idempotent (sample_conn no_tables)).
  intros i Hi. reflexivity.
Defined.
